(** * Telegram notification endpoint: a shallow embedding of notifier/views.py

    The file follows the layout of the view class [NotifyTelegramView]:
    Python values and text first, then the exception-and-state monad the
    methods run in, then the methods in source order
    ([send_telegram_message], [notify_admin_error], [generate_request_id],
    [validate_input], [post]), and last the properties of the
    specification. *)

From Stdlib Require Import Strings.String Strings.Ascii.
From Stdlib Require Import NArith ZArith Lia DecimalString Floats.SpecFloat.
From stdpp Require Import base option list gmap.

#[local] Set Warnings "-register-all".
Local Open Scope N_scope.

(** ** Python text

    A Python [str] is a sequence of Unicode code points, so [len] counts
    code points and [str.isdigit] looks at code points.  The literals of
    the source file are UTF-8; [u] decodes such a literal. *)

Abbreviation pystr := (list N).

Fixpoint utf8_decode (bs : list N) (pending : nat) (acc : N) : pystr :=
  match bs with
  | [] => []
  | b :: bs' =>
      match pending with
      | O =>
          if b <? 128 then b :: utf8_decode bs' 0 0
          else if b <? 224 then utf8_decode bs' 1 (b - 192)
          else if b <? 240 then utf8_decode bs' 2 (b - 224)
          else utf8_decode bs' 3 (b - 240)
      | S O => (acc * 64 + (b - 128)) :: utf8_decode bs' 0 0
      | S k => utf8_decode bs' k (acc * 64 + (b - 128))
      end
  end.

Definition u (s : string) : pystr :=
  utf8_decode (map N_of_ascii (list_ascii_of_string s)) 0 0.
Arguments u s%_string.

(** [sep.join(parts)] *)
Fixpoint join (sep : pystr) (parts : list pystr) : pystr :=
  match parts with
  | [] => []
  | [p] => p
  | p :: ps => p ++ sep ++ join sep ps
  end.

(** [needle in hay] for two strings. *)
Fixpoint startswith (hay needle : pystr) : bool :=
  match needle, hay with
  | [], _ => true
  | _ :: _, [] => false
  | c :: needle', h :: hay' => (c =? h) && startswith hay' needle'
  end.

Fixpoint contains (hay needle : pystr) : bool :=
  startswith hay needle ||
  match hay with
  | [] => false
  | _ :: hay' => contains hay' needle
  end.

(** [str.upper] on the ASCII range, which is all that [str(uuid)] holds. *)
Definition upper_cp (c : N) : N :=
  if (97 <=? c) && (c <=? 122) then c - 32 else c.

Definition upper (s : pystr) : pystr := map upper_cp s.

Definition is_upper_hex (c : N) : bool :=
  ((48 <=? c) && (c <=? 57)) || ((65 <=? c) && (c <=? 70)).

Definition is_lower_hex (c : N) : bool :=
  ((48 <=? c) && (c <=? 57)) || ((97 <=? c) && (c <=? 102)).

(** ** Python values, as the JSON parser hands them to the view *)

Inductive pyval :=
| PNone
| PBool (b : bool)
| PInt (z : Z)
| PFloat (f : spec_float)
| PStr (s : pystr)
| PList (l : list pyval)
| PDict (d : list (pystr * pyval)).

(** [bool(v)], the test of an [if v:] *)
Definition truthy (v : pyval) : bool :=
  match v with
  | PNone => false
  | PBool b => b
  | PInt z => negb (z =? 0)%Z
  | PFloat (S754_zero _) => false
  | PFloat _ => true
  | PStr s => negb (bool_decide (s = []))
  | PList l => negb (bool_decide (length l = 0%nat))
  | PDict d => negb (bool_decide (length d = 0%nat))
  end.

(** [isinstance(v, bool)]: [bool] has no subclass, and an [int] is not one. *)
Definition isinstance_bool (v : pyval) : bool :=
  match v with PBool _ => true | _ => false end.

(** [type(v).__name__] *)
Definition type_name (v : pyval) : pystr :=
  match v with
  | PNone => u "NoneType"
  | PBool _ => u "bool"
  | PInt _ => u "int"
  | PFloat _ => u "float"
  | PStr _ => u "str"
  | PList _ => u "list"
  | PDict _ => u "dict"
  end.

Definition str_int (z : Z) : pystr :=
  u (NilZero.string_of_int (Z.to_int z)).

(** ** Exceptions

    [exn] ranges over the subclasses of [Exception]; [exn_msg] is what
    [str(e)] returns.  [ValueError] and [TelegramError] stand for the class
    and its subclasses, as an [except] clause sees them; the telegram
    package derives none of its errors from [ValueError]. *)

Inductive exn_class :=
| ValueError
| TelegramError
| AttributeError
| TypeError
| KeyError
| OtherException.

#[global] Instance exn_class_eq_dec : EqDecision exn_class.
Proof. solve_decision. Defined.

Record exn := Exn { exn_cls : exn_class; exn_msg : pystr }.

Definition is_class (c : exn_class) (e : exn) : bool :=
  bool_decide (exn_cls e = c).

Inductive result (A : Type) :=
| Ok (a : A)
| Raise (e : exn).
Arguments Ok {A} a.
Arguments Raise {A} e.

(** ** The telegram package, as far as the view uses it *)

Record InlineKeyboardButton := Button {
  button_text : pystr;
  callback_data : pystr
}.

Abbreviation InlineKeyboardMarkup := (list (list InlineKeyboardButton)).

(** The arguments of one [bot.send_message(...)]. *)
Record send_call := SendCall {
  chat_id : pyval;
  text : pystr;
  parse_mode : option pystr;
  reply_markup : option InlineKeyboardMarkup
}.

Inductive level := WARNING | ERROR.

(** What the process cannot decide by itself: the environment variables
    read at import time, the outcome of building the client and of each
    API call (numbered per request, in order), the 16 bytes [uuid4] draws,
    and two pieces of the Python runtime that are left open: the digit
    table of [str.isdigit] beyond ASCII, and [str()] of floats, lists and
    dicts. *)
Record World := {
  TELEGRAM_BOT_TOKEN : pyval;
  TELEGRAM_GROUP_ID : pyval;
  TELEGRAM_ADMIN_ID : pyval;
  Bot_init : pyval -> option exn;
  api_send : nat -> send_call -> option exn;
  urandom16 : N;
  isdigit_wide : N -> bool;
  str_compound : pyval -> pystr
}.

(** What a request leaves behind: the calls made to the API and the log. *)
Record state := State {
  outbox : list send_call;
  log : list (level * pystr)
}.

Definition initial : state := State [] [].

(** ** The monad of the view's methods

    A computation reads the world, changes the state and ends with a value
    or a raised exception.  The state survives a raise: what was logged or
    sent before the exception stays logged and sent. *)

Definition M (A : Type) : Type := World -> state -> state * result A.

Definition ret {A} (a : A) : M A := fun _ s => (s, Ok a).

Definition raise {A} (e : exn) : M A := fun _ s => (s, Raise e).

Definition bind {A B} (m : M A) (k : A -> M B) : M B :=
  fun w s =>
    match m w s with
    | (s', Ok a) => k a w s'
    | (s', Raise e) => (s', Raise e)
    end.

(** [try: m  except Exception as e: h e] *)
Definition try_except {A} (m : M A) (h : exn -> M A) : M A :=
  fun w s =>
    match m w s with
    | (s', Ok a) => (s', Ok a)
    | (s', Raise e) => h e w s'
    end.

Definition lift {A} (r : result A) : M A := fun _ s => (s, r).

Definition ask {A} (f : World -> A) : M A := fun w s => (s, Ok (f w)).

Declare Scope py_scope.
Delimit Scope py_scope with py.
Notation "x <- m ;; k" := (bind m (fun x => k))
  (at level 100, m at next level, right associativity) : py_scope.
Notation "m ;; k" := (bind m (fun _ => k))
  (at level 100, right associativity) : py_scope.
Local Open Scope py_scope.

(** [logger.warning(msg)], [logger.error(msg)] *)
Definition logger (l : level) (msg : pystr) : M unit :=
  fun _ s => (State (outbox s) (log s ++ [(l, msg)]), Ok tt).

(** [Bot(token=token)] *)
Definition Bot (token : pyval) : M unit :=
  fun w s =>
    match Bot_init w token with
    | None => (s, Ok tt)
    | Some e => (s, Raise e)
    end.

(** [await bot.send_message(...)]: the call is made, and the world answers. *)
Definition send_message (c : send_call) : M unit :=
  fun w s =>
    let s' := State (outbox s ++ [c]) (log s) in
    match api_send w (length (outbox s)) c with
    | None => (s', Ok tt)
    | Some e => (s', Raise e)
    end.

(** ** Formatting *)

(** [str(v)], the conversion an f-string applies to [{v}]. *)
Definition py_str (w : World) (v : pyval) : pystr :=
  match v with
  | PStr s => s
  | PNone => u "None"
  | PBool true => u "True"
  | PBool false => u "False"
  | PInt z => str_int z
  | _ => str_compound w v
  end.

(** [str.isdigit] on one code point. *)
Definition isdigit_cp (w : World) (c : N) : bool :=
  if c <? 128 then (48 <=? c) && (c <=? 57) else isdigit_wide w c.

(** [s.isdigit()]: at least one character, and all of them digits. *)
Definition isdigit (w : World) (s : pystr) : bool :=
  negb (bool_decide (s = [])) && forallb (isdigit_cp w) s.

(** ** generate_request_id *)

Definition hex_digit (d : N) : N :=
  if d <? 10 then 48 + d else 87 + d.

(** The [n] low hexadecimal digits of [x], most significant first
    (['%032x' % x] for [n = 32] and [x < 2^128]). *)
Fixpoint hex_digits (n : nat) (x : N) : pystr :=
  match n with
  | O => []
  | S k => hex_digits k (x / 16) ++ [hex_digit (x mod 16)]
  end.

(** [uuid.uuid4().int]: 16 random bytes read big-endian, then the variant
    and version bits set as [UUID.__init__] does for [version=4]. *)
Definition uuid4_int (w : World) : N :=
  let i := urandom16 w mod 2 ^ 128 in
  let i := N.ldiff i (N.shiftl 0xc000 48) in
  let i := N.lor i (N.shiftl 0x8000 48) in
  let i := N.ldiff i (N.shiftl 0xf000 64) in
  N.lor i (N.shiftl 4 76).

(** [str(uuid)]: the 32 digits in groups of 8-4-4-4-12. *)
Definition uuid_str (i : N) : pystr :=
  let hex := hex_digits 32 i in
  take 8 hex ++ u "-" ++ take 4 (drop 8 hex) ++ u "-" ++
  take 4 (drop 12 hex) ++ u "-" ++ take 4 (drop 16 hex) ++ u "-" ++
  drop 20 hex.

Definition generate_request_id (w : World) : pystr :=
  upper (take 8 (uuid_str (uuid4_int w))).

(** ** send_telegram_message *)

(** The text built in lines 35 to 47. *)
Definition format_message (w : World)
    (name phone fees_paid email course : pyval) : pystr :=
  let message :=
    u "🎓 *New Registration Request*" ++ [10; 10] ++
    u "👤 *Name:* " ++ py_str w name ++ [10] ++
    u "📞 *Phone:* " ++ py_str w phone ++ [10] in
  let message :=
    if truthy email
    then message ++ u "📧 *Email:* " ++ py_str w email ++ [10]
    else message in
  let message :=
    if truthy course
    then message ++ u "📚 *Course:* " ++ py_str w course ++ [10]
    else message in
  let message :=
    message ++ u "💰 *Fees Paid:* " ++
    (if truthy fees_paid then u "✅ Yes" else u "❌ No") ++ [10; 10] in
  message ++ u "🆔 *Request ID:* " ++ generate_request_id w.

(** The inline keyboard built in lines 50 to 58. *)
Definition keyboard (w : World) (phone : pyval) : InlineKeyboardMarkup :=
  [ [ Button (u "✅ Approve") (u "approve_" ++ py_str w phone);
      Button (u "❌ Reject") (u "reject_" ++ py_str w phone) ];
    [ Button (u "ℹ️ More Info") (u "info_" ++ py_str w phone) ] ].

(** ** notify_admin_error *)

Definition admin_alert (w : World) (error_message : pystr) : send_call :=
  SendCall (TELEGRAM_ADMIN_ID w)
           (u "🚨 *System Error*" ++ [10; 10] ++ error_message)
           (Some (u "Markdown")) None.

Definition notify_admin_error (error_message : pystr) : M unit :=
  try_except
    (token <- ask TELEGRAM_BOT_TOKEN ;;
     Bot token ;;
     c <- ask (fun w => admin_alert w error_message) ;;
     send_message c)
    (fun e => logger ERROR (u "Failed to notify admin: " ++ exn_msg e)).

Definition group_message (w : World)
    (name phone fees_paid email course : pyval) : send_call :=
  SendCall (TELEGRAM_GROUP_ID w)
           (format_message w name phone fees_paid email course)
           (Some (u "Markdown"))
           (Some (keyboard w phone)).

Definition admin_confirmation (w : World) (name : pyval) : send_call :=
  SendCall (TELEGRAM_ADMIN_ID w)
           (u "ℹ️ New registration request from " ++ py_str w name ++
            u " received and forwarded to group.")
           None None.

(** The body of the [try] of [send_telegram_message]. *)
Definition send_body (name phone fees_paid email course : pyval) : M unit :=
  token <- ask TELEGRAM_BOT_TOKEN ;;
  Bot token ;;
  c <- ask (fun w => group_message w name phone fees_paid email course) ;;
  send_message c ;;
  c <- ask (fun w => admin_confirmation w name) ;;
  send_message c.

Definition send_telegram_message
    (name phone fees_paid email course : pyval) : M unit :=
  try_except
    (send_body name phone fees_paid email course)
    (fun e =>
       if is_class TelegramError e then
         logger ERROR (u "Telegram API error: " ++ exn_msg e) ;;
         notify_admin_error (u "Failed to send message: " ++ exn_msg e) ;;
         raise e
       else
         logger ERROR (u "Unexpected error: " ++ exn_msg e) ;;
         notify_admin_error (u "Unexpected error: " ++ exn_msg e) ;;
         raise e).

(** The text handed to [notify_admin_error] and the text logged by the
    [except] clause of [send_telegram_message] that catches [e]. *)
Definition alert_text (e : exn) : pystr :=
  (if is_class TelegramError e then u "Failed to send message: "
   else u "Unexpected error: ") ++ exn_msg e.

Definition caught_text (e : exn) : pystr :=
  (if is_class TelegramError e then u "Telegram API error: "
   else u "Unexpected error: ") ++ exn_msg e.

(** ** validate_input *)

(** [request.data]: the parsed JSON object. *)
Abbreviation pydict :=
  (@gmap (list N) (@list_eq_dec N N.eq_dec)
         (@list_countable N N.eq_dec N_countable) pyval).

(** [key in data] *)
Definition has_key (data : pydict) (key : pystr) : bool :=
  match data !! key with Some _ => true | None => false end.

(** [data.get(key, default)] *)
Definition dict_get (data : pydict) (key : pystr) (default : pyval) : pyval :=
  match data !! key with Some v => v | None => default end.

(** [data[key]] *)
Definition getitem (data : pydict) (key : pystr) : result pyval :=
  match data !! key with
  | Some v => Ok v
  | None => Raise (Exn KeyError (u "'" ++ key ++ u "'"))
  end.

(** [v.isdigit()]: only [str] has the method. *)
Definition call_isdigit (w : World) (v : pyval) : result bool :=
  match v with
  | PStr s => Ok (isdigit w s)
  | _ => Raise (Exn AttributeError
                  (u "'" ++ type_name v ++
                   u "' object has no attribute 'isdigit'"))
  end.

(** [len(v)] *)
Definition py_len (v : pyval) : result nat :=
  match v with
  | PStr s => Ok (length s)
  | PList l => Ok (length l)
  | PDict d => Ok (length d)
  | _ => Raise (Exn TypeError
                  (u "object of type '" ++ type_name v ++ u "' has no len()"))
  end.

Definition required_fields : list pystr := [u "name"; u "phone"].

Definition missing_fields (data : pydict) : list pystr :=
  List.filter (fun field => negb (has_key data field)) required_fields.

Definition validate_input (w : World) (data : pydict) : result unit :=
  match missing_fields data with
  | _ :: _ =>
      Raise (Exn ValueError
               (u "Missing required fields: " ++
                join (u ", ") (missing_fields data)))
  | [] =>
      if negb (isinstance_bool (dict_get data (u "fees_paid") (PBool false)))
      then Raise (Exn ValueError (u "fees_paid must be a boolean value"))
      else
        match getitem data (u "phone") with
        | Raise e => Raise e
        | Ok phone =>
            match call_isdigit w phone with
            | Raise e => Raise e
            | Ok false =>
                Raise (Exn ValueError
                         (u "Phone number must be at least 10 digits"))
            | Ok true =>
                match py_len phone with
                | Raise e => Raise e
                | Ok n =>
                    if (10 <=? n)%nat then Ok tt
                    else Raise (Exn ValueError
                                  (u "Phone number must be at least 10 digits"))
                end
            end
        end
  end.

(** ** post *)

Record Response := {
  body : pyval;
  status : N
}.

Definition HTTP_200_OK : N := 200.
Definition HTTP_400_BAD_REQUEST : N := 400.
Definition HTTP_500_INTERNAL_SERVER_ERROR : N := 500.
Definition HTTP_502_BAD_GATEWAY : N := 502.

Definition success_body (name phone fees_paid : pyval) : pyval :=
  PDict [ (u "status", PStr (u "success"));
          (u "message", PStr (u "Registration request sent successfully!"));
          (u "data", PDict [ (u "name", name);
                             (u "phone", phone);
                             (u "fees_paid", fees_paid) ]) ].

Definition error_body (message : pystr) : pyval :=
  PDict [ (u "status", PStr (u "error"));
          (u "message", PStr message) ].

(** The three [except] clauses of [post], in source order. *)
Definition respond (e : exn) : M Response :=
  if is_class ValueError e then
    logger WARNING (u "Validation error: " ++ exn_msg e) ;;
    ret {| body := error_body (exn_msg e);
           status := HTTP_400_BAD_REQUEST |}
  else if is_class TelegramError e then
    logger ERROR (u "Telegram API error: " ++ exn_msg e) ;;
    ret {| body := error_body (u "Failed to send notification to Telegram");
           status := HTTP_502_BAD_GATEWAY |}
  else
    logger ERROR (u "Unexpected error: " ++ exn_msg e) ;;
    ret {| body := error_body (u "An unexpected error occurred");
           status := HTTP_500_INTERNAL_SERVER_ERROR |}.

Definition post (data : pydict) : M Response :=
  try_except
    ((fun w s => (s, validate_input w data)) ;;
     name <- lift (getitem data (u "name")) ;;
     phone <- lift (getitem data (u "phone")) ;;
     let fees_paid := dict_get data (u "fees_paid") (PBool false) in
     let email := dict_get data (u "email") PNone in
     let course := dict_get data (u "course") PNone in
     send_telegram_message name phone fees_paid email course ;;
     ret {| body := success_body name phone fees_paid;
            status := HTTP_200_OK |})
    respond.

(** ** Worlds and inputs used in the examples *)

(** A world in which the client is built and every call succeeds. *)
Definition working_world : World := {|
  TELEGRAM_BOT_TOKEN := PStr (u "123456:token");
  TELEGRAM_GROUP_ID := PStr (u "-1001");
  TELEGRAM_ADMIN_ID := PStr (u "42");
  Bot_init := fun _ => None;
  api_send := fun _ _ => None;
  urandom16 := 0x1a2b3c4d5e6f708192a3b4c5d6e7f809;
  isdigit_wide := fun _ => false;
  str_compound := fun _ => u "?"
|}.

Definition alice : pydict :=
  <[u "name" := PStr (u "Alice")]>
  (<[u "phone" := PStr (u "9876543210")]>
  (<[u "fees_paid" := PBool true]> ∅)).


(** [{"name": "", "phone": "9876543210"}] *)
Definition nameless : pydict :=
  <[u "name" := PStr []]> (<[u "phone" := PStr (u "9876543210")]> ∅).

(** [{"name": "Bob", "phone": 9876543210, "fees_paid": "yes"}] *)
Definition bob_number_phone : pydict :=
  <[u "name" := PStr (u "Bob")]>
  (<[u "phone" := PInt 9876543210]>
  (<[u "fees_paid" := PStr (u "yes")]> ∅)).

(** A world whose first API call, the post to the group, is refused. *)
Definition group_down : World := {|
  TELEGRAM_BOT_TOKEN := PStr (u "123456:token");
  TELEGRAM_GROUP_ID := PStr (u "-1001");
  TELEGRAM_ADMIN_ID := PStr (u "42");
  Bot_init := fun _ => None;
  api_send := fun n _ =>
    match n with
    | O => Some (Exn TelegramError (u "Chat not found"))
    | _ => None
    end;
  urandom16 := 7;
  isdigit_wide := fun _ => false;
  str_compound := fun _ => u "?"
|}.

(** A world in which every API call times out. *)
Definition all_down : World := {|
  TELEGRAM_BOT_TOKEN := PStr (u "123456:token");
  TELEGRAM_GROUP_ID := PStr (u "-1001");
  TELEGRAM_ADMIN_ID := PStr (u "42");
  Bot_init := fun _ => None;
  api_send := fun _ _ => Some (Exn TelegramError (u "Timed out"));
  urandom16 := 7;
  isdigit_wide := fun _ => false;
  str_compound := fun _ => u "?"
|}.

(** [{"name": "Eve", "phone": "98765-3210"}] *)
Definition eve_dashed_phone : pydict :=
  <[u "name" := PStr (u "Eve")]> (<[u "phone" := PStr (u "98765-3210")]> ∅).

(** [{"name": "Dan", "phone": "9876543210", "fees_paid": 1}] *)
Definition dan_integer_fees : pydict :=
  <[u "name" := PStr (u "Dan")]>
  (<[u "phone" := PStr (u "9876543210")]>
  (<[u "fees_paid" := PInt 1]> ∅)).

(** [{"name": "Bob", "phone": 9876543210}] *)
Definition bob_number_phone_only : pydict :=
  <[u "name" := PStr (u "Bob")]> (<[u "phone" := PInt 9876543210]> ∅).

(** [{"name": "Alice", "phone": "9876543210", "fees_paid": true,
      "email": ""}] *)
Definition alice_empty_email : pydict := <[u "email" := PStr []]> alice.

(** A world in which the group accepts the message and the confirmation
    to the admin is refused. *)
Definition confirmation_down : World := {|
  TELEGRAM_BOT_TOKEN := PStr (u "123456:token");
  TELEGRAM_GROUP_ID := PStr (u "-1001");
  TELEGRAM_ADMIN_ID := PStr (u "42");
  Bot_init := fun _ => None;
  api_send := fun n _ =>
    match n with
    | 1%nat => Some (Exn TelegramError (u "Forbidden: bot was blocked by the user"))
    | _ => None
    end;
  urandom16 := 7;
  isdigit_wide := fun _ => false;
  str_compound := fun _ => u "?"
|}.

(** A world without a bot token: the client cannot be built. *)
Definition no_token : World := {|
  TELEGRAM_BOT_TOKEN := PNone;
  TELEGRAM_GROUP_ID := PStr (u "-1001");
  TELEGRAM_ADMIN_ID := PStr (u "42");
  Bot_init := fun _ => Some (Exn TelegramError (u "Invalid token"));
  api_send := fun _ _ => None;
  urandom16 := 7;
  isdigit_wide := fun _ => false;
  str_compound := fun _ => u "?"
|}.

(** A world whose first API call raises the exception [e]. *)
Definition first_call_raises (e : exn) : World := {|
  TELEGRAM_BOT_TOKEN := PStr (u "123456:token");
  TELEGRAM_GROUP_ID := PStr (u "-1001");
  TELEGRAM_ADMIN_ID := PStr (u "42");
  Bot_init := fun _ => None;
  api_send := fun n _ => match n with O => Some e | _ => None end;
  urandom16 := 7;
  isdigit_wide := fun _ => false;
  str_compound := fun _ => u "?"
|}.

(** [{"name": "Alice", "phone": "9876543210", "fees_paid": true,
      "referrer": "web"}] *)
Definition alice_with_referrer : pydict :=
  <[u "referrer" := PStr (u "web")]> alice.

(** * Properties *)

(** ** Running the monad *)

Lemma run_try_except {A} (m : M A) (h : exn -> M A) (w : World) s :
  try_except m h w s =
  match m w s with
  | (s', Ok a) => (s', Ok a)
  | (s', Raise e) => h e w s'
  end.
Proof. reflexivity. Qed.

(** ** Validation *)

Lemma missing_fields_cases (data : pydict) :
  missing_fields data =
  (if has_key data (u "name") then [] else [u "name"]) ++
  (if has_key data (u "phone") then [] else [u "phone"]).
Proof.
  unfold missing_fields, required_fields. cbn [List.filter].
  destruct (has_key data (u "name")), (has_key data (u "phone")); reflexivity.
Qed.

(** The missing fields are the required fields that are not keys of the
    input, in the order name, phone. *)
Lemma missing_fields_spec (data : pydict) (field : pystr) :
  In field (missing_fields data) <->
  In field required_fields /\ data !! field = None.
Proof.
  unfold missing_fields. rewrite filter_In. unfold has_key.
  destruct (data !! field); simpl; intuition congruence.
Qed.

Lemma missing_fields_nil (data : pydict) :
  missing_fields data = [] <->
  is_Some (data !! u "name") /\ is_Some (data !! u "phone").
Proof.
  rewrite missing_fields_cases. unfold has_key.
  destruct (data !! u "name"), (data !! u "phone"); simpl;
    split; try discriminate; try (intros _; split; eauto);
    intros [[? ?] [? ?]]; discriminate.
Qed.

Lemma validate_input_missing (w : World) (data : pydict) :
  missing_fields data <> [] ->
  validate_input w data =
  Raise (Exn ValueError
           (u "Missing required fields: " ++
            join (u ", ") (missing_fields data))).
Proof.
  intros H. unfold validate_input.
  destruct (missing_fields data); [congruence | reflexivity].
Qed.

Lemma validate_input_present (w : World) (data : pydict) name phone :
  data !! u "name" = Some name ->
  data !! u "phone" = Some phone ->
  validate_input w data =
  if negb (isinstance_bool (dict_get data (u "fees_paid") (PBool false)))
  then Raise (Exn ValueError (u "fees_paid must be a boolean value"))
  else
    match call_isdigit w phone with
    | Raise e => Raise e
    | Ok false =>
        Raise (Exn ValueError (u "Phone number must be at least 10 digits"))
    | Ok true =>
        match py_len phone with
        | Raise e => Raise e
        | Ok n =>
            if (10 <=? n)%nat then Ok tt
            else Raise (Exn ValueError
                          (u "Phone number must be at least 10 digits"))
        end
    end.
Proof.
  intros Hn Hp. unfold validate_input.
  assert (missing_fields data = []) as ->
    by (apply missing_fields_nil; rewrite Hn, Hp; eauto).
  unfold getitem. rewrite Hp. reflexivity.
Qed.

(** What [post] answers when validation raises. *)
Lemma post_invalid (w : World) s (data : pydict) e :
  validate_input w data = Raise e ->
  post data w s = respond e w s.
Proof.
  intros H. unfold post. rewrite run_try_except. unfold bind at 1.
  rewrite H. reflexivity.
Qed.

Lemma respond_value_error (w : World) s msg :
  respond (Exn ValueError msg) w s =
  (State (outbox s) (log s ++ [(WARNING, u "Validation error: " ++ msg)]),
   Ok {| body := error_body msg; status := HTTP_400_BAD_REQUEST |}).
Proof. reflexivity. Qed.

Lemma respond_telegram_error (w : World) s msg :
  respond (Exn TelegramError msg) w s =
  (State (outbox s) (log s ++ [(ERROR, u "Telegram API error: " ++ msg)]),
   Ok {| body := error_body (u "Failed to send notification to Telegram");
         status := HTTP_502_BAD_GATEWAY |}).
Proof. reflexivity. Qed.

Lemma respond_other (w : World) s e :
  exn_cls e <> ValueError -> exn_cls e <> TelegramError ->
  respond e w s =
  (State (outbox s) (log s ++ [(ERROR, u "Unexpected error: " ++ exn_msg e)]),
   Ok {| body := error_body (u "An unexpected error occurred");
         status := HTTP_500_INTERNAL_SERVER_ERROR |}).
Proof.
  intros Hv Ht. unfold respond, is_class.
  rewrite !bool_decide_eq_false_2 by assumption. reflexivity.
Qed.

(** C3: when name or phone (or both) is not a key of the input, the
    handler answers 400 with status "error", and the message lists, after
    "Missing required fields: ", exactly the required fields that are
    absent. *)
Theorem missing_required_fields_rejected (w : World) (data : pydict) :
  data !! u "name" = None \/ data !! u "phone" = None ->
  exists message,
    post data w initial =
    (State [] [(WARNING, u "Validation error: " ++ message)],
     Ok {| body := PDict [ (u "status", PStr (u "error"));
                           (u "message", PStr message) ];
           status := 400 |}) /\
    message =
      match data !! u "name", data !! u "phone" with
      | None, None => u "Missing required fields: name, phone"
      | None, Some _ => u "Missing required fields: name"
      | _, _ => u "Missing required fields: phone"
      end /\
    message = u "Missing required fields: " ++
              join (u ", ") (missing_fields data) /\
    forall field,
      In field (missing_fields data) <->
      In field [u "name"; u "phone"] /\ data !! field = None.
Proof.
  intros H.
  assert (missing_fields data <> []) as Hm.
  { rewrite missing_fields_nil. intros [[? Hn] [? Hp]].
    destruct H; congruence. }
  exists (u "Missing required fields: " ++
          join (u ", ") (missing_fields data)).
  split; [| split; [| split]].
  - rewrite (post_invalid _ _ _ _ (validate_input_missing w data Hm)).
    rewrite respond_value_error. reflexivity.
  - rewrite missing_fields_cases. unfold has_key.
    destruct (data !! u "name"), (data !! u "phone");
      try reflexivity.
    destruct H; discriminate.
  - reflexivity.
  - apply missing_fields_spec.
Qed.

Lemma missing_required_fields_rejected_witness :
  exists message,
    post ∅ working_world initial =
    (State [] [(WARNING, u "Validation error: " ++ message)],
     Ok {| body := PDict [ (u "status", PStr (u "error"));
                           (u "message", PStr message) ];
           status := 400 |}) /\
    message =
      match (∅ : pydict) !! u "name", (∅ : pydict) !! u "phone" with
      | None, None => u "Missing required fields: name, phone"
      | None, Some _ => u "Missing required fields: name"
      | _, _ => u "Missing required fields: phone"
      end /\
    message = u "Missing required fields: " ++
              join (u ", ") (missing_fields ∅) /\
    forall field,
      In field (missing_fields ∅) <->
      In field [u "name"; u "phone"] /\ (∅ : pydict) !! field = None.
Proof.
  apply (missing_required_fields_rejected working_world ∅).
  left. reflexivity.
Defined.

Lemma fees_paid_default (data : pydict) :
  data !! u "fees_paid" = None \/
  (exists b, data !! u "fees_paid" = Some (PBool b)) ->
  isinstance_bool (dict_get data (u "fees_paid") (PBool false)) = true.
Proof.
  unfold dict_get. intros [-> | [b ->]]; reflexivity.
Qed.

Lemma validate_input_str_phone (w : World) (data : pydict) name phone :
  data !! u "name" = Some name ->
  data !! u "phone" = Some (PStr phone) ->
  isinstance_bool (dict_get data (u "fees_paid") (PBool false)) = true ->
  validate_input w data =
  if isdigit w phone && (10 <=? length phone)%nat then Ok tt
  else Raise (Exn ValueError (u "Phone number must be at least 10 digits")).
Proof.
  intros Hn Hp Hf. rewrite (validate_input_present w data name _ Hn Hp), Hf.
  cbn [negb call_isdigit py_len].
  destruct (isdigit w phone), (10 <=? length phone)%nat; reflexivity.
Qed.

Lemma isdigit_non_digit (w : World) (phone : pystr) c :
  In c phone -> isdigit_cp w c = false -> isdigit w phone = false.
Proof.
  intros Hin Hc. unfold isdigit. apply andb_false_iff. right.
  destruct (forallb (isdigit_cp w) phone) eqn:E; [| reflexivity].
  rewrite forallb_forall in E. rewrite (E c Hin) in Hc. discriminate.
Qed.

(** C4: when name and phone are keys of the input and phone is a string
    with a character that is not a digit, or with fewer than 10
    characters, the handler answers 400 with status "error". *)
Theorem malformed_phone_rejected (w : World) (data : pydict) name phone :
  data !! u "name" = Some name ->
  data !! u "phone" = Some (PStr phone) ->
  (exists c, In c phone /\ isdigit_cp w c = false) \/
  (length phone < 10)%nat ->
  exists message,
    post data w initial =
    (State [] [(WARNING, u "Validation error: " ++ message)],
     Ok {| body := PDict [ (u "status", PStr (u "error"));
                           (u "message", PStr message) ];
           status := 400 |}).
Proof.
  intros Hn Hp Hbad.
  destruct (isinstance_bool (dict_get data (u "fees_paid") (PBool false)))
    eqn:Hf.
  - exists (u "Phone number must be at least 10 digits").
    rewrite (post_invalid w initial data
               (Exn ValueError (u "Phone number must be at least 10 digits"))).
    + rewrite respond_value_error. reflexivity.
    + rewrite (validate_input_str_phone w data name phone Hn Hp Hf).
      destruct Hbad as [(c & Hin & Hc) | Hlen].
      * rewrite (isdigit_non_digit w phone c Hin Hc). reflexivity.
      * apply Nat.leb_gt in Hlen. rewrite Hlen, andb_false_r. reflexivity.
  - exists (u "fees_paid must be a boolean value").
    rewrite (post_invalid w initial data
               (Exn ValueError (u "fees_paid must be a boolean value"))).
    + rewrite respond_value_error. reflexivity.
    + rewrite (validate_input_present w data name _ Hn Hp), Hf. reflexivity.
Qed.

Lemma malformed_phone_rejected_witness :
  exists message,
    post eve_dashed_phone working_world initial =
    (State [] [(WARNING, u "Validation error: " ++ message)],
     Ok {| body := PDict [ (u "status", PStr (u "error"));
                           (u "message", PStr message) ];
           status := 400 |}).
Proof.
  apply (malformed_phone_rejected working_world eve_dashed_phone
           (PStr (u "Eve")) (u "98765-3210")).
  - reflexivity.
  - reflexivity.
  - left. exists 45. split; [| reflexivity].
    vm_compute. tauto.
Defined.

(** C5: when name and phone are keys of the input and fees_paid is a key
    whose value is not a boolean, the handler answers 400; the check comes
    before the one on phone, so the answer does not depend on phone. *)
Theorem non_boolean_fees_paid_rejected
    (w : World) (data : pydict) name phone fees_paid :
  data !! u "name" = Some name ->
  data !! u "phone" = Some phone ->
  data !! u "fees_paid" = Some fees_paid ->
  (forall b, fees_paid <> PBool b) ->
  post data w initial =
  (State [] [(WARNING, u "Validation error: " ++
                       u "fees_paid must be a boolean value")],
   Ok {| body := PDict [ (u "status", PStr (u "error"));
                         (u "message",
                          PStr (u "fees_paid must be a boolean value")) ];
         status := 400 |}).
Proof.
  intros Hn Hp Hf Hnb.
  rewrite (post_invalid w initial data
             (Exn ValueError (u "fees_paid must be a boolean value"))).
  - rewrite respond_value_error. reflexivity.
  - rewrite (validate_input_present w data name phone Hn Hp).
    unfold dict_get. rewrite Hf.
    destruct fees_paid; try reflexivity.
    exfalso. eapply Hnb. reflexivity.
Qed.

Lemma non_boolean_fees_paid_rejected_witness :
  post dan_integer_fees working_world initial =
  (State [] [(WARNING, u "Validation error: " ++
                       u "fees_paid must be a boolean value")],
   Ok {| body := PDict [ (u "status", PStr (u "error"));
                         (u "message",
                          PStr (u "fees_paid must be a boolean value")) ];
         status := 400 |}).
Proof.
  apply (non_boolean_fees_paid_rejected working_world dan_integer_fees
           (PStr (u "Dan")) (PStr (u "9876543210")) (PInt 1)).
  - reflexivity.
  - reflexivity.
  - reflexivity.
  - intros b. discriminate.
Defined.

(** [str()] of integers, as an f-string renders them. *)
Example str_int_examples :
  str_int 0 = u "0" /\ str_int (-5) = u "-5" /\
  str_int 9876543210 = u "9876543210".
Proof. vm_compute. repeat split. Qed.

(** Integers, strings and null are not booleans for [isinstance]. *)
Lemma not_boolean_values (z : Z) (s : pystr) :
  isinstance_bool (PInt z) = false /\
  isinstance_bool (PStr s) = false /\
  isinstance_bool PNone = false.
Proof. repeat split. Qed.

(** ** The outbound client *)

Lemma notify_admin_error_run (w : World) s (error_message : pystr) :
  notify_admin_error error_message w s =
  match Bot_init w (TELEGRAM_BOT_TOKEN w) with
  | Some e =>
      (State (outbox s)
             (log s ++ [(ERROR, u "Failed to notify admin: " ++ exn_msg e)]),
       Ok tt)
  | None =>
      match api_send w (length (outbox s)) (admin_alert w error_message) with
      | None => (State (outbox s ++ [admin_alert w error_message]) (log s),
                 Ok tt)
      | Some e =>
          (State (outbox s ++ [admin_alert w error_message])
                 (log s ++ [(ERROR, u "Failed to notify admin: " ++ exn_msg e)]),
           Ok tt)
      end
  end.
Proof.
  unfold notify_admin_error, try_except, bind, ask, Bot, send_message, logger.
  destruct (Bot_init w (TELEGRAM_BOT_TOKEN w)); [reflexivity |].
  destruct (api_send w (length (outbox s)) (admin_alert w error_message));
    reflexivity.
Qed.

Lemma notify_admin_error_returns (w : World) s (error_message : pystr) :
  snd (notify_admin_error error_message w s) = Ok tt.
Proof.
  rewrite notify_admin_error_run.
  destruct (Bot_init w (TELEGRAM_BOT_TOKEN w)); [reflexivity |].
  destruct (api_send w (length (outbox s)) (admin_alert w error_message));
    reflexivity.
Qed.

Lemma send_telegram_message_ok
    (w : World) s (name phone fees_paid email course : pyval) s1 :
  send_body name phone fees_paid email course w s = (s1, Ok tt) ->
  send_telegram_message name phone fees_paid email course w s = (s1, Ok tt).
Proof.
  intros H. unfold send_telegram_message. rewrite run_try_except, H.
  reflexivity.
Qed.

Lemma send_telegram_message_raises
    (w : World) s (name phone fees_paid email course : pyval) s1 e :
  send_body name phone fees_paid email course w s = (s1, Raise e) ->
  send_telegram_message name phone fees_paid email course w s =
  (fst (notify_admin_error (alert_text e) w
          (State (outbox s1) (log s1 ++ [(ERROR, caught_text e)]))),
   Raise e).
Proof.
  intros H. unfold send_telegram_message. rewrite run_try_except, H.
  unfold alert_text, caught_text.
  destruct (is_class TelegramError e);
    unfold bind, logger, raise; cbv beta iota;
    match goal with
    | |- context [notify_admin_error ?m w ?s'] =>
        pose proof (notify_admin_error_returns w s' m) as Hr;
        destruct (notify_admin_error m w s') as [s2 r]
    end; simpl in Hr; subst r; reflexivity.
Qed.

Lemma send_body_ok
    (w : World) s (name phone fees_paid email course : pyval) :
  Bot_init w (TELEGRAM_BOT_TOKEN w) = None ->
  api_send w (length (outbox s))
    (group_message w name phone fees_paid email course) = None ->
  api_send w (S (length (outbox s))) (admin_confirmation w name) = None ->
  send_body name phone fees_paid email course w s =
  (State (outbox s ++ [group_message w name phone fees_paid email course;
                       admin_confirmation w name])
         (log s),
   Ok tt).
Proof.
  intros Hb H0 H1. unfold send_body, bind, ask, Bot, send_message.
  cbv beta iota. rewrite Hb, H0. cbn [outbox log].
  rewrite length_app, Nat.add_comm. cbn [length Nat.add]. rewrite H1.
  rewrite <- app_assoc. reflexivity.
Qed.

(** What [post] does once validation has passed. *)
Lemma post_valid (w : World) s (data : pydict) name phone :
  validate_input w data = Ok tt ->
  data !! u "name" = Some name ->
  data !! u "phone" = Some phone ->
  post data w s =
  match send_telegram_message name phone
          (dict_get data (u "fees_paid") (PBool false))
          (dict_get data (u "email") PNone)
          (dict_get data (u "course") PNone) w s with
  | (s', Ok _) =>
      (s', Ok {| body := success_body name phone
                           (dict_get data (u "fees_paid") (PBool false));
                 status := HTTP_200_OK |})
  | (s', Raise e) => respond e w s'
  end.
Proof.
  intros Hv Hn Hp. unfold post, try_except, bind, lift, getitem, ret.
  cbv beta iota. rewrite Hv, Hn, Hp.
  destruct (send_telegram_message _ _ _ _ _ w s) as [s' [[]|e]]; reflexivity.
Qed.

(** ** The handler *)

(** C1: an input that passes validation (name and phone among its keys,
    phone a string of at least 10 digits, fees_paid absent or a boolean),
    with the client built and both sends accepted, is answered 200 with
    status "success", a message, and data that echoes name, phone and
    fees_paid, the latter being false when the key is absent. *)
Theorem valid_submission_succeeds
    (w : World) (data : pydict) (name : pyval) (phone : pystr) :
  data !! u "name" = Some name ->
  data !! u "phone" = Some (PStr phone) ->
  isdigit w phone = true ->
  (10 <= length phone)%nat ->
  data !! u "fees_paid" = None \/
  (exists b, data !! u "fees_paid" = Some (PBool b)) ->
  let fees_paid :=
    match data !! u "fees_paid" with Some v => v | None => PBool false end in
  let email := dict_get data (u "email") PNone in
  let course := dict_get data (u "course") PNone in
  Bot_init w (TELEGRAM_BOT_TOKEN w) = None ->
  api_send w 0 (group_message w name (PStr phone) fees_paid email course)
    = None ->
  api_send w 1 (admin_confirmation w name) = None ->
  exists message,
    post data w initial =
    (State [ group_message w name (PStr phone) fees_paid email course;
             admin_confirmation w name ] [],
     Ok {| body :=
             PDict [ (u "status", PStr (u "success"));
                     (u "message", PStr message);
                     (u "data", PDict [ (u "name", name);
                                        (u "phone", PStr phone);
                                        (u "fees_paid", fees_paid) ]) ];
           status := 200 |}).
Proof.
  intros Hn Hp Hd Hl Hf fees_paid email course Hb H0 H1.
  exists (u "Registration request sent successfully!").
  assert (validate_input w data = Ok tt) as Hv.
  { rewrite (validate_input_str_phone w data name phone Hn Hp
               (fees_paid_default data Hf)).
    rewrite Hd. apply Nat.leb_le in Hl. rewrite Hl. reflexivity. }
  rewrite (post_valid w initial data name (PStr phone) Hv Hn Hp).
  change (dict_get data (u "fees_paid") (PBool false)) with fees_paid.
  fold email course.
  rewrite (send_telegram_message_ok w initial name (PStr phone)
             fees_paid email course
             (State [ group_message w name (PStr phone) fees_paid email course;
                      admin_confirmation w name ] [])).
  - reflexivity.
  - apply (send_body_ok w initial); assumption.
Qed.

Lemma valid_submission_succeeds_witness :
  exists message,
    post alice working_world initial =
    (State [ group_message working_world (PStr (u "Alice"))
               (PStr (u "9876543210")) (PBool true) PNone PNone;
             admin_confirmation working_world (PStr (u "Alice")) ] [],
     Ok {| body :=
             PDict [ (u "status", PStr (u "success"));
                     (u "message", PStr message);
                     (u "data", PDict [ (u "name", PStr (u "Alice"));
                                        (u "phone", PStr (u "9876543210"));
                                        (u "fees_paid", PBool true) ]) ];
           status := 200 |}).
Proof.
  apply (valid_submission_succeeds working_world alice
           (PStr (u "Alice")) (u "9876543210")).
  - reflexivity.
  - reflexivity.
  - reflexivity.
  - vm_compute. lia.
  - right. exists true. reflexivity.
  - reflexivity.
  - reflexivity.
  - reflexivity.
Defined.

(** C2: for a validated input, when the [try] block of
    [send_telegram_message] raises a [TelegramError] (from building the
    client or from either send), the method logs the error, runs
    [notify_admin_error] once, which makes one alert call when the client
    can be built, and raises the same error again; the handler answers 502
    with a fixed body in which the error's own text does not appear.  The
    alert call goes to TELEGRAM_ADMIN_ID, in Markdown and without
    keyboard, and its text is the "System Error" heading, an empty line
    and "Failed to send message: " followed by the text of the error. *)
Theorem telegram_failure_gateway_error
    (w : World) (data : pydict) (name phone : pyval) (s1 : state) (e : exn) :
  validate_input w data = Ok tt ->
  data !! u "name" = Some name ->
  data !! u "phone" = Some phone ->
  let fees_paid := dict_get data (u "fees_paid") (PBool false) in
  let email := dict_get data (u "email") PNone in
  let course := dict_get data (u "course") PNone in
  send_body name phone fees_paid email course w initial = (s1, Raise e) ->
  exn_cls e = TelegramError ->
  let logged :=
    State (outbox s1)
          (log s1 ++ [(ERROR, u "Telegram API error: " ++ exn_msg e)]) in
  let alert := u "Failed to send message: " ++ exn_msg e in
  let alerted := fst (notify_admin_error alert w logged) in
  send_telegram_message name phone fees_paid email course w initial =
    (alerted, Raise e) /\
  (Bot_init w (TELEGRAM_BOT_TOKEN w) = None ->
   outbox alerted =
   outbox s1 ++
   [ {| chat_id := TELEGRAM_ADMIN_ID w;
        text := u "🚨 *System Error*" ++ [10; 10] ++
                u "Failed to send message: " ++ exn_msg e;
        parse_mode := Some (u "Markdown");
        reply_markup := None |} ]) /\
  (Bot_init w (TELEGRAM_BOT_TOKEN w) <> None ->
   outbox alerted = outbox s1) /\
  post data w initial =
    (State (outbox alerted)
           (log alerted ++ [(ERROR, u "Telegram API error: " ++ exn_msg e)]),
     Ok {| body :=
             PDict [ (u "status", PStr (u "error"));
                     (u "message",
                      PStr (u "Failed to send notification to Telegram")) ];
           status := 502 |}).
Proof.
  intros Hv Hn Hp fees_paid email course Hbody Hcls logged alert alerted.
  assert (is_class TelegramError e = true) as Hc
    by (apply bool_decide_eq_true; exact Hcls).
  assert (send_telegram_message name phone fees_paid email course w initial =
          (alerted, Raise e)) as Hsend.
  { rewrite (send_telegram_message_raises w initial _ _ _ _ _ s1 e Hbody).
    unfold alert_text, caught_text. rewrite Hc. reflexivity. }
  split; [exact Hsend |]. split; [| split].
  - intros Hb. subst alerted. rewrite notify_admin_error_run, Hb.
    destruct (api_send w (length (outbox logged)) (admin_alert w alert));
      reflexivity.
  - intros Hb. subst alerted. rewrite notify_admin_error_run.
    destruct (Bot_init w (TELEGRAM_BOT_TOKEN w)); [reflexivity | congruence].
  - rewrite (post_valid w initial data name phone Hv Hn Hp).
    fold fees_paid email course. rewrite Hsend.
    destruct e as [c msg]. simpl in Hcls. subst c.
    rewrite respond_telegram_error. reflexivity.
Qed.

Lemma telegram_failure_gateway_error_witness :
  post alice group_down initial =
  (State [ group_message group_down (PStr (u "Alice"))
             (PStr (u "9876543210")) (PBool true) PNone PNone;
           {| chat_id := PStr (u "42");
              text := u "🚨 *System Error*" ++ [10; 10] ++
                      u "Failed to send message: Chat not found";
              parse_mode := Some (u "Markdown");
              reply_markup := None |} ]
         [ (ERROR, u "Telegram API error: Chat not found");
           (ERROR, u "Telegram API error: Chat not found") ],
   Ok {| body :=
           PDict [ (u "status", PStr (u "error"));
                   (u "message",
                    PStr (u "Failed to send notification to Telegram")) ];
         status := 502 |}).
Proof.
  apply (fun Hv Hn Hp Hb Hc =>
           proj2 (proj2 (proj2
             (telegram_failure_gateway_error group_down alice
                (PStr (u "Alice")) (PStr (u "9876543210"))
                (State [ group_message group_down (PStr (u "Alice"))
                           (PStr (u "9876543210")) (PBool true) PNone PNone ]
                       [])
                (Exn TelegramError (u "Chat not found"))
                Hv Hn Hp Hb Hc)))).
  - reflexivity.
  - reflexivity.
  - reflexivity.
  - reflexivity.
  - reflexivity.
Defined.

(** C8: [notify_admin_error] never raises.  It returns normally from every
    state; when the alert call fails, the call was made and the failure is
    logged; and whatever it did, [send_telegram_message] raises the error
    its [try] block raised. *)
Theorem notify_admin_error_swallows
    (w : World) (s : state) (error_message : pystr) :
  (exists s', notify_admin_error error_message w s = (s', Ok tt)) /\
  (forall e,
     Bot_init w (TELEGRAM_BOT_TOKEN w) = None ->
     api_send w (length (outbox s)) (admin_alert w error_message) = Some e ->
     notify_admin_error error_message w s =
     (State (outbox s ++ [admin_alert w error_message])
            (log s ++ [(ERROR, u "Failed to notify admin: " ++ exn_msg e)]),
      Ok tt)) /\
  (forall e,
     Bot_init w (TELEGRAM_BOT_TOKEN w) = Some e ->
     notify_admin_error error_message w s =
     (State (outbox s)
            (log s ++ [(ERROR, u "Failed to notify admin: " ++ exn_msg e)]),
      Ok tt)) /\
  (forall name phone fees_paid email course s1 e,
     send_body name phone fees_paid email course w s = (s1, Raise e) ->
     snd (send_telegram_message name phone fees_paid email course w s) =
     Raise e).
Proof.
  split; [| split; [| split]].
  - pose proof (notify_admin_error_returns w s error_message) as H.
    destruct (notify_admin_error error_message w s) as [s' r].
    exists s'. simpl in H. rewrite H. reflexivity.
  - intros e Hb Hs. rewrite notify_admin_error_run, Hb, Hs. reflexivity.
  - intros e Hb. rewrite notify_admin_error_run, Hb. reflexivity.
  - intros name phone fees_paid email course s1 e H.
    rewrite (send_telegram_message_raises w s _ _ _ _ _ s1 e H). reflexivity.
Qed.

Lemma notify_admin_error_swallows_witness :
  notify_admin_error (u "Failed to send message: Timed out") all_down initial =
  (State [admin_alert all_down (u "Failed to send message: Timed out")]
         [(ERROR, u "Failed to notify admin: Timed out")],
   Ok tt).
Proof.
  apply (proj1 (proj2
           (notify_admin_error_swallows all_down initial
              (u "Failed to send message: Timed out")))
           (Exn TelegramError (u "Timed out"))).
  - reflexivity.
  - reflexivity.
Defined.

(** With every call failing, the caller still sees the first error. *)
Example all_down_surfaces_first_error :
  post alice all_down initial =
  (State [ group_message all_down (PStr (u "Alice"))
             (PStr (u "9876543210")) (PBool true) PNone PNone;
           admin_alert all_down (u "Failed to send message: Timed out") ]
         [ (ERROR, u "Telegram API error: Timed out");
           (ERROR, u "Failed to notify admin: Timed out");
           (ERROR, u "Telegram API error: Timed out") ],
   Ok {| body := error_body (u "Failed to send notification to Telegram");
         status := 502 |}).
Proof. vm_compute. reflexivity. Qed.

(** C10, as amended: when name and phone are keys of the input, phone is
    not a string, and fees_paid is absent or a boolean, [validate_input]
    raises an [AttributeError] (no [isdigit] on the value) and the handler
    answers 500 with "An unexpected error occurred". *)
Theorem non_string_phone_unexpected_error
    (w : World) (data : pydict) (name phone : pyval) :
  data !! u "name" = Some name ->
  data !! u "phone" = Some phone ->
  (forall s, phone <> PStr s) ->
  data !! u "fees_paid" = None \/
  (exists b, data !! u "fees_paid" = Some (PBool b)) ->
  let detail :=
    u "'" ++ type_name phone ++ u "' object has no attribute 'isdigit'" in
  validate_input w data = Raise (Exn AttributeError detail) /\
  post data w initial =
  (State [] [(ERROR, u "Unexpected error: " ++ detail)],
   Ok {| body :=
           PDict [ (u "status", PStr (u "error"));
                   (u "message", PStr (u "An unexpected error occurred")) ];
         status := 500 |}).
Proof.
  intros Hn Hp Hns Hf detail.
  assert (validate_input w data = Raise (Exn AttributeError detail)) as Hv.
  { rewrite (validate_input_present w data name phone Hn Hp).
    rewrite (fees_paid_default data Hf). cbn [negb].
    destruct phone; try reflexivity.
    exfalso. eapply Hns. reflexivity. }
  split; [exact Hv |].
  rewrite (post_invalid w initial data _ Hv).
  rewrite respond_other by (simpl; discriminate). reflexivity.
Qed.

Lemma non_string_phone_unexpected_error_witness :
  let detail :=
    u "'" ++ type_name (PInt 9876543210) ++
    u "' object has no attribute 'isdigit'" in
  validate_input working_world bob_number_phone_only =
    Raise (Exn AttributeError detail) /\
  post bob_number_phone_only working_world initial =
  (State [] [(ERROR, u "Unexpected error: " ++ detail)],
   Ok {| body :=
           PDict [ (u "status", PStr (u "error"));
                   (u "message", PStr (u "An unexpected error occurred")) ];
         status := 500 |}).
Proof.
  apply (non_string_phone_unexpected_error working_world
           bob_number_phone_only (PStr (u "Bob")) (PInt 9876543210)).
  - reflexivity.
  - reflexivity.
  - intros s. discriminate.
  - left. reflexivity.
Defined.

(** The text of that error for a JSON number. *)
Example int_has_no_isdigit :
  call_isdigit working_world (PInt 9876543210) =
  Raise (Exn AttributeError (u "'int' object has no attribute 'isdigit'")).
Proof. vm_compute. reflexivity. Qed.

(** C10 as stated fails: with a numeric phone and a fees_paid that is not
    a boolean, the fees_paid check comes first and the answer is 400. *)
Lemma non_string_phone_counterexample :
  bob_number_phone !! u "name" = Some (PStr (u "Bob")) /\
  bob_number_phone !! u "phone" = Some (PInt 9876543210) /\
  validate_input working_world bob_number_phone =
    Raise (Exn ValueError (u "fees_paid must be a boolean value")) /\
  snd (post bob_number_phone working_world initial) =
    Ok {| body := error_body (u "fees_paid must be a boolean value");
          status := 400 |}.
Proof. vm_compute. repeat split. Qed.

(** C7, as amended: the value of name is not inspected.  An input whose
    name is the empty string passes validation when phone and fees_paid
    do, and with a working client the request is sent and answered 200. *)
Theorem empty_name_accepted (w : World) (data : pydict) (phone : pystr) :
  data !! u "name" = Some (PStr []) ->
  data !! u "phone" = Some (PStr phone) ->
  isdigit w phone = true ->
  (10 <= length phone)%nat ->
  data !! u "fees_paid" = None \/
  (exists b, data !! u "fees_paid" = Some (PBool b)) ->
  validate_input w data = Ok tt /\
  (forall name', validate_input w (<[u "name" := name']> data) = Ok tt) /\
  let fees_paid := dict_get data (u "fees_paid") (PBool false) in
  let email := dict_get data (u "email") PNone in
  let course := dict_get data (u "course") PNone in
  (Bot_init w (TELEGRAM_BOT_TOKEN w) = None ->
   api_send w 0 (group_message w (PStr []) (PStr phone) fees_paid email course)
     = None ->
   api_send w 1 (admin_confirmation w (PStr [])) = None ->
   post data w initial =
   (State [ group_message w (PStr []) (PStr phone) fees_paid email course;
            admin_confirmation w (PStr []) ] [],
    Ok {| body := success_body (PStr []) (PStr phone) fees_paid;
          status := 200 |})).
Proof.
  intros Hn Hp Hd Hl Hf.
  assert (forall (d : pydict) n,
            d !! u "name" = Some n ->
            d !! u "phone" = Some (PStr phone) ->
            d !! u "fees_paid" = data !! u "fees_paid" ->
            validate_input w d = Ok tt) as Hgen.
  { intros d n Hdn Hdp Hdf.
    rewrite (validate_input_str_phone w d n phone Hdn Hdp).
    - rewrite Hd. apply Nat.leb_le in Hl. rewrite Hl. reflexivity.
    - apply fees_paid_default. rewrite Hdf. exact Hf. }
  split; [| split].
  - apply (Hgen data (PStr [])); auto.
  - intros name'. apply (Hgen _ name').
    + apply lookup_insert_eq.
    + rewrite lookup_insert_ne by (vm_compute; discriminate). exact Hp.
    + rewrite lookup_insert_ne by (vm_compute; discriminate). reflexivity.
  - intros fees_paid email course Hb H0 H1.
    rewrite (post_valid w initial data (PStr []) (PStr phone)
               (Hgen data (PStr []) Hn Hp eq_refl) Hn Hp).
    fold fees_paid email course.
    rewrite (send_telegram_message_ok w initial (PStr []) (PStr phone)
               fees_paid email course
               (State [ group_message w (PStr []) (PStr phone)
                          fees_paid email course;
                        admin_confirmation w (PStr []) ] [])).
    + reflexivity.
    + apply (send_body_ok w initial); assumption.
Qed.

Lemma empty_name_accepted_witness :
  validate_input working_world nameless = Ok tt.
Proof.
  apply (empty_name_accepted working_world nameless (u "9876543210")).
  - reflexivity.
  - reflexivity.
  - reflexivity.
  - vm_compute. lia.
  - left. reflexivity.
Defined.

(** C7 as stated fails: an empty name is validated, sent and answered 200. *)
Lemma empty_name_counterexample :
  nameless !! u "name" = Some (PStr []) /\
  validate_input working_world nameless = Ok tt /\
  length (outbox (fst (post nameless working_world initial))) = 2%nat /\
  snd (post nameless working_world initial) =
    Ok {| body := success_body (PStr []) (PStr (u "9876543210")) (PBool false);
          status := 200 |}.
Proof. vm_compute. repeat split. Qed.

(** ** The formatter *)

(** C6: for every phone [p] the keyboard has two rows, Approve and Reject
    with payloads "approve_" ++ p and "reject_" ++ p, then More Info with
    payload "info_" ++ p; this is the markup of the message sent to the
    group; a phone that is not a string enters the payloads through
    [str()]; for "9876543210" the payloads are approve_9876543210,
    reject_9876543210 and info_9876543210. *)
Theorem keyboard_layout (w : World) (p : pystr) :
  keyboard w (PStr p) =
    [ [ Button (u "✅ Approve") (u "approve_" ++ p);
        Button (u "❌ Reject") (u "reject_" ++ p) ];
      [ Button (u "ℹ️ More Info") (u "info_" ++ p) ] ] /\
  (forall name fees_paid email course,
     reply_markup (group_message w name (PStr p) fees_paid email course) =
     Some (keyboard w (PStr p))) /\
  (forall v : pyval,
     map (map callback_data) (keyboard w v) =
     [ [ u "approve_" ++ py_str w v; u "reject_" ++ py_str w v ];
       [ u "info_" ++ py_str w v ] ]) /\
  map (map callback_data) (keyboard w (PStr (u "9876543210"))) =
    [ [ u "approve_9876543210"; u "reject_9876543210" ];
      [ u "info_9876543210" ] ].
Proof.
  split; [reflexivity |]. split; [reflexivity |]. split; [reflexivity |].
  vm_compute. reflexivity.
Qed.

Lemma hex_digit_lower (d : N) : d < 16 -> is_lower_hex (hex_digit d) = true.
Proof.
  intros H. unfold is_lower_hex, hex_digit.
  destruct (N.ltb_spec d 10).
  - apply orb_true_iff. left. apply andb_true_iff.
    split; apply N.leb_le; lia.
  - apply orb_true_iff. right. apply andb_true_iff.
    split; apply N.leb_le; lia.
Qed.

Lemma upper_cp_hex (c : N) :
  is_lower_hex c = true -> is_upper_hex (upper_cp c) = true.
Proof.
  unfold is_lower_hex, is_upper_hex, upper_cp.
  rewrite !orb_true_iff, !andb_true_iff, !N.leb_le. intros [[H1 H2] | [H1 H2]].
  - replace ((97 <=? c) && (c <=? 122)) with false.
    + left. split; assumption.
    + symmetry. apply andb_false_iff. left. apply N.leb_gt. lia.
  - replace ((97 <=? c) && (c <=? 122)) with true.
    + right. split; lia.
    + symmetry. apply andb_true_iff. split; apply N.leb_le; lia.
Qed.

Lemma upper_cp_idem (c : N) :
  is_upper_hex c = true -> upper_cp c = c.
Proof.
  unfold is_upper_hex, upper_cp.
  rewrite !orb_true_iff, !andb_true_iff, !N.leb_le. intros H.
  replace ((97 <=? c) && (c <=? 122)) with false; [reflexivity |].
  symmetry. apply andb_false_iff. left. apply N.leb_gt. lia.
Qed.

Lemma hex_digits_length (n : nat) (x : N) : length (hex_digits n x) = n.
Proof.
  revert x. induction n as [| n IH]; intros x; simpl; [reflexivity |].
  rewrite length_app, IH. simpl. lia.
Qed.

Lemma hex_digits_lower (n : nat) (x : N) :
  forallb is_lower_hex (hex_digits n x) = true.
Proof.
  revert x. induction n as [| n IH]; intros x; simpl; [reflexivity |].
  rewrite forallb_app, IH. simpl.
  rewrite hex_digit_lower; [reflexivity |].
  apply N.mod_lt. discriminate.
Qed.

(** The identifier is the first 8 of the 32 digits, in upper case. *)
Lemma generate_request_id_digits (w : World) :
  generate_request_id w = upper (take 8 (hex_digits 32 (uuid4_int w))).
Proof.
  unfold generate_request_id, uuid_str.
  rewrite take_app_le by (rewrite length_take, hex_digits_length; lia).
  rewrite take_take. reflexivity.
Qed.

Lemma generate_request_id_length (w : World) :
  length (generate_request_id w) = 8%nat.
Proof.
  rewrite generate_request_id_digits. unfold upper.
  rewrite length_map, length_take, hex_digits_length. reflexivity.
Qed.

Lemma forallb_take {A} (f : A -> bool) (n : nat) (l : list A) :
  forallb f l = true -> forallb f (take n l) = true.
Proof.
  revert n. induction l as [| a l IH]; intros [| n] H; simpl in *;
    try reflexivity.
  apply andb_true_iff in H as [Ha Hl]. rewrite Ha, (IH n Hl). reflexivity.
Qed.

Lemma generate_request_id_upper_hex (w : World) :
  forallb is_upper_hex (generate_request_id w) = true.
Proof.
  rewrite generate_request_id_digits. unfold upper.
  rewrite forallb_forall. intros c Hc. apply in_map_iff in Hc as (d & <- & Hd).
  apply upper_cp_hex.
  pose proof (forallb_take is_lower_hex 8 _
                (hex_digits_lower 32 (uuid4_int w))) as H.
  rewrite forallb_forall in H. apply H. exact Hd.
Qed.

Lemma generate_request_id_upper (w : World) :
  upper (generate_request_id w) = generate_request_id w.
Proof.
  pose proof (generate_request_id_upper_hex w) as H.
  induction (generate_request_id w) as [| c s IH]; [reflexivity |].
  simpl in *. apply andb_true_iff in H as [Hc Hs].
  rewrite (upper_cp_idem c Hc). f_equal. apply IH. exact Hs.
Qed.

Lemma take_hex_digits (n k : nat) (x : N) :
  take n (hex_digits (n + k) x) = hex_digits n (x / 16 ^ N.of_nat k).
Proof.
  revert x. induction k as [| k IH]; intros x.
  - rewrite Nat.add_0_r, N.pow_0_r, N.div_1_r.
    apply take_ge. rewrite hex_digits_length. lia.
  - rewrite Nat.add_succ_r. cbn [hex_digits].
    rewrite take_app_le by (rewrite hex_digits_length; lia).
    rewrite IH, Nat2N.inj_succ, N.pow_succ_r'.
    rewrite N.Div0.div_div.
    reflexivity.
Qed.

Lemma uuid4_int_high_bits (w : World) :
  N.shiftr (uuid4_int w) 96 = N.shiftr (urandom16 w mod 2 ^ 128) 96.
Proof.
  unfold uuid4_int. set (i := urandom16 w mod 2 ^ 128).
  apply N.bits_inj. intros n.
  rewrite !N.shiftr_spec', N.lor_spec, N.ldiff_spec, N.lor_spec, N.ldiff_spec.
  assert (forall a, N.log2 a < 96 -> N.testbit a (n + 96) = false) as Hhigh.
  { intros a Ha. apply N.bits_above_log2. lia. }
  rewrite (Hhigh (N.shiftl 4 76)) by (vm_compute; reflexivity).
  rewrite (Hhigh (N.shiftl 61440 64)) by (vm_compute; reflexivity).
  rewrite (Hhigh (N.shiftl 32768 48)) by (vm_compute; reflexivity).
  rewrite (Hhigh (N.shiftl 49152 48)) by (vm_compute; reflexivity).
  cbn [negb]. rewrite !orb_false_r, !andb_true_r. reflexivity.
Qed.

(** The identifier is the upper-case hexadecimal writing of the 32 high
    bits of the draw. *)
Lemma generate_request_id_high_bits (w : World) :
  generate_request_id w =
  upper (hex_digits 8 (urandom16 w mod 2 ^ 128 / 2 ^ 96)).
Proof.
  rewrite generate_request_id_digits.
  rewrite (take_hex_digits 8 24).
  change (16 ^ N.of_nat 24) with (2 ^ 96).
  rewrite <- !N.shiftr_div_pow2, uuid4_int_high_bits. reflexivity.
Qed.

Lemma upper_hex_digit (d : N) :
  d < 16 -> upper_cp (hex_digit d) = if d <? 10 then 48 + d else 55 + d.
Proof.
  intros H. unfold upper_cp, hex_digit.
  destruct (N.ltb_spec d 10).
  - replace ((97 <=? 48 + d) && (48 + d <=? 122)) with false; [reflexivity |].
    symmetry. apply andb_false_iff. left. apply N.leb_gt. lia.
  - replace ((97 <=? 87 + d) && (87 + d <=? 122)) with true; [lia |].
    symmetry. apply andb_true_iff. split; apply N.leb_le; lia.
Qed.

Lemma upper_hex_digit_inj (d1 d2 : N) :
  d1 < 16 -> d2 < 16 ->
  upper_cp (hex_digit d1) = upper_cp (hex_digit d2) -> d1 = d2.
Proof.
  intros H1 H2. rewrite !upper_hex_digit by assumption.
  destruct (N.ltb_spec d1 10), (N.ltb_spec d2 10); lia.
Qed.

Lemma upper_hex_digits_inj (n : nat) (x y : N) :
  x < 16 ^ N.of_nat n -> y < 16 ^ N.of_nat n ->
  upper (hex_digits n x) = upper (hex_digits n y) -> x = y.
Proof.
  revert x y. induction n as [| n IH]; intros x y Hx Hy Heq.
  - rewrite N.pow_0_r in Hx, Hy. lia.
  - rewrite Nat2N.inj_succ, N.pow_succ_r' in Hx, Hy.
    cbn [hex_digits] in Heq. unfold upper in Heq. rewrite !map_app in Heq.
    cbn [map] in Heq. apply app_inj_tail in Heq as [Hhi Hlo].
    assert (x / 16 = y / 16) as Hq.
    { apply IH; [apply N.Div0.div_lt_upper_bound; exact Hx
                | apply N.Div0.div_lt_upper_bound; exact Hy
                | exact Hhi]. }
    assert (x mod 16 = y mod 16) as Hr.
    { apply upper_hex_digit_inj;
        [apply N.mod_lt; discriminate | apply N.mod_lt; discriminate
        | exact Hlo]. }
    rewrite (N.div_mod x 16), (N.div_mod y 16) by discriminate.
    rewrite Hq, Hr. reflexivity.
Qed.

Lemma generate_request_id_eq_iff (w1 w2 : World) :
  generate_request_id w1 = generate_request_id w2 <->
  urandom16 w1 mod 2 ^ 128 / 2 ^ 96 = urandom16 w2 mod 2 ^ 128 / 2 ^ 96.
Proof.
  rewrite !generate_request_id_high_bits. split.
  - apply upper_hex_digits_inj;
      apply N.Div0.div_lt_upper_bound;
      change (2 ^ 96 * 16 ^ N.of_nat 8) with (2 ^ 128);
      apply N.mod_lt; apply N.pow_nonzero; discriminate.
  - intros ->. reflexivity.
Qed.

(** C9, as amended: the message has the heading, the name line and the
    phone line, then an email line exactly when email is truthy (present
    and not empty), a course line exactly when course is truthy, the fees
    line with Yes for true and No for false, and last the request
    identifier, which has 8 characters, all of them digits or upper-case
    A to F.  The identifier is generated for the call: it is the
    upper-case hexadecimal writing of the 32 high bits of the draw that
    [uuid4] makes in this call, and another call gets the same identifier
    only when its draw has the same 32 high bits. *)
Theorem message_layout
    (w : World) (name phone : pyval) (fees_paid : bool) (email course : pyval) :
  let request_id := generate_request_id w in
  format_message w name phone (PBool fees_paid) email course =
    u "🎓 *New Registration Request*" ++ [10; 10] ++
    u "👤 *Name:* " ++ py_str w name ++ [10] ++
    u "📞 *Phone:* " ++ py_str w phone ++ [10] ++
    (if truthy email then u "📧 *Email:* " ++ py_str w email ++ [10] else []) ++
    (if truthy course then u "📚 *Course:* " ++ py_str w course ++ [10] else []) ++
    u "💰 *Fees Paid:* " ++ (if fees_paid then u "✅ Yes" else u "❌ No") ++
    [10; 10] ++
    u "🆔 *Request ID:* " ++ request_id /\
  length request_id = 8%nat /\
  forallb is_upper_hex request_id = true /\
  upper request_id = request_id /\
  truthy PNone = false /\
  truthy (PStr []) = false /\
  (forall c s, truthy (PStr (c :: s)) = true) /\
  request_id = upper (hex_digits 8 (urandom16 w mod 2 ^ 128 / 2 ^ 96)) /\
  (forall w' : World,
     generate_request_id w' = request_id <->
     urandom16 w' mod 2 ^ 128 / 2 ^ 96 = urandom16 w mod 2 ^ 128 / 2 ^ 96).
Proof.
  intros request_id.
  split; [| split; [| split; [| split; [| split; [| split; [| split;
    [| split]]]]]]].
  - unfold format_message. fold request_id. cbn [truthy].
    destruct (truthy email), (truthy course);
      repeat rewrite <- app_assoc; reflexivity.
  - apply generate_request_id_length.
  - apply generate_request_id_upper_hex.
  - apply generate_request_id_upper.
  - reflexivity.
  - reflexivity.
  - intros c s. reflexivity.
  - apply generate_request_id_high_bits.
  - intros w'. apply generate_request_id_eq_iff.
Qed.

(** C9 as stated fails: an email that is present but empty gets no line. *)
Lemma empty_email_counterexample :
  alice_empty_email !! u "email" = Some (PStr []) /\
  (let message :=
     format_message working_world (PStr (u "Alice")) (PStr (u "9876543210"))
       (PBool true) (PStr []) PNone in
   contains message (u "Email") = false /\
   map text (outbox (fst (post alice_empty_email working_world initial))) =
   [ message;
     u "ℹ️ New registration request from Alice received and forwarded to group."
   ]).
Proof. vm_compute. repeat split. Qed.

(** The message of the specification's example. *)
Example alice_message :
  format_message working_world (PStr (u "Alice")) (PStr (u "9876543210"))
    (PBool true) PNone PNone =
  u "🎓 *New Registration Request*

👤 *Name:* Alice
📞 *Phone:* 9876543210
💰 *Fees Paid:* ✅ Yes

🆔 *Request ID:* 1A2B3C4D".
Proof. vm_compute. reflexivity. Qed.

(** * Further properties of the view *)

(** ** validate_input *)

Lemma validate_input_ext (w : World) (d1 d2 : pydict) :
  d1 !! u "name" = d2 !! u "name" ->
  d1 !! u "phone" = d2 !! u "phone" ->
  d1 !! u "fees_paid" = d2 !! u "fees_paid" ->
  validate_input w d1 = validate_input w d2.
Proof.
  intros Hn Hp Hf. unfold validate_input.
  rewrite !missing_fields_cases. unfold has_key, dict_get, getitem.
  rewrite Hn, Hp, Hf. reflexivity.
Qed.

Lemma validate_input_absent (w : World) (data : pydict) :
  data !! u "name" = None \/ data !! u "phone" = None ->
  exists msg,
    validate_input w data = Raise (Exn ValueError msg) /\
    (msg = u "Missing required fields: name, phone" \/
     msg = u "Missing required fields: name" \/
     msg = u "Missing required fields: phone").
Proof.
  intros H. unfold validate_input. rewrite !missing_fields_cases.
  unfold has_key.
  destruct (data !! u "name"), (data !! u "phone");
    try (destruct H; discriminate);
    eexists; (split; [reflexivity |]); auto.
Qed.

(** X1: [validate_input] accepts an input exactly when name and phone are
    keys, phone is a string of digits with at least 10 characters, and
    fees_paid is absent or a boolean; nothing else is looked at, and there
    is no upper bound on the length of phone. *)
Theorem validate_input_accepts_iff (w : World) (data : pydict) :
  validate_input w data = Ok tt <->
  is_Some (data !! u "name") /\
  (exists p, data !! u "phone" = Some (PStr p) /\
             isdigit w p = true /\ (10 <= length p)%nat) /\
  (data !! u "fees_paid" = None \/
   exists b, data !! u "fees_paid" = Some (PBool b)).
Proof.
  split.
  - intros Hv.
    destruct (data !! u "name") as [name |] eqn:Hn.
    2: { destruct (validate_input_absent w data (or_introl Hn))
           as (m & Hm & _). congruence. }
    destruct (data !! u "phone") as [phone |] eqn:Hp.
    2: { destruct (validate_input_absent w data (or_intror Hp))
           as (m & Hm & _). congruence. }
    rewrite (validate_input_present w data name phone Hn Hp) in Hv.
    unfold dict_get in Hv.
    split; [eauto |]. split.
    + destruct (data !! u "fees_paid") as [[]|]; try discriminate Hv;
        cbn [isinstance_bool negb] in Hv;
        (destruct phone; try discriminate Hv;
         cbn [call_isdigit py_len] in Hv;
         destruct (isdigit w s) eqn:Hd; try discriminate Hv;
         destruct (10 <=? length s)%nat eqn:Hl; try discriminate Hv;
         exists s; split; [reflexivity |];
         split; [exact Hd | apply Nat.leb_le; exact Hl]).
    + destruct (data !! u "fees_paid") as [[]|]; try discriminate Hv; eauto.
  - intros ([name Hn] & (p & Hp & Hd & Hl) & Hf).
    rewrite (validate_input_str_phone w data name p Hn Hp
               (fees_paid_default data Hf)).
    rewrite Hd. apply Nat.leb_le in Hl. rewrite Hl. reflexivity.
Qed.

Lemma validate_input_accepts_iff_witness :
  validate_input working_world alice = Ok tt.
Proof.
  apply (proj2 (validate_input_accepts_iff working_world alice)).
  split; [| split].
  - exists (PStr (u "Alice")). reflexivity.
  - exists (u "9876543210"). split; [reflexivity |].
    split; [reflexivity |]. vm_compute. lia.
  - right. exists true. reflexivity.
Defined.

(** X2: for a request body that is a JSON object, whatever
    [validate_input] raises is a [ValueError] with one of five messages,
    or the [AttributeError] of a phone that is not a string.  The lookup
    [data['phone']] cannot fail once the required fields are known to be
    present, and [len(phone)] is only reached for a string, so no
    [KeyError] or [TypeError] comes out of an object body. *)
Theorem validate_input_raises_only (w : World) (data : pydict) (e : exn) :
  validate_input w data = Raise e ->
  (exn_cls e = ValueError /\
   (exn_msg e = u "Missing required fields: name, phone" \/
    exn_msg e = u "Missing required fields: name" \/
    exn_msg e = u "Missing required fields: phone" \/
    exn_msg e = u "fees_paid must be a boolean value" \/
    exn_msg e = u "Phone number must be at least 10 digits")) \/
  (exn_cls e = AttributeError /\
   exists phone, data !! u "phone" = Some phone /\
                 (forall p, phone <> PStr p) /\
                 exn_msg e = u "'" ++ type_name phone ++
                             u "' object has no attribute 'isdigit'").
Proof.
  intros Hv.
  assert (forall m,
            validate_input w data = Raise (Exn ValueError m) ->
            m = u "Missing required fields: name, phone" \/
            m = u "Missing required fields: name" \/
            m = u "Missing required fields: phone" ->
            exn_cls e = ValueError /\
            (exn_msg e = u "Missing required fields: name, phone" \/
             exn_msg e = u "Missing required fields: name" \/
             exn_msg e = u "Missing required fields: phone" \/
             exn_msg e = u "fees_paid must be a boolean value" \/
             exn_msg e = u "Phone number must be at least 10 digits"))
    as Hmissing.
  { intros m Hm Hc. rewrite Hm in Hv. injection Hv as <-.
    split; [reflexivity |]. cbn [exn_msg].
    destruct Hc as [-> | [-> | ->]].
    - left. reflexivity.
    - right. left. reflexivity.
    - right. right. left. reflexivity. }
  destruct (data !! u "name") as [name |] eqn:Hn.
  2: { destruct (validate_input_absent w data (or_introl Hn))
         as (m & Hm & Hc). left. exact (Hmissing m Hm Hc). }
  destruct (data !! u "phone") as [phone |] eqn:Hp.
  2: { destruct (validate_input_absent w data (or_intror Hp))
         as (m & Hm & Hc). left. exact (Hmissing m Hm Hc). }
  clear Hmissing.
  rewrite (validate_input_present w data name phone Hn Hp) in Hv.
  destruct (negb (isinstance_bool (dict_get data (u "fees_paid") (PBool false)))).
  { injection Hv as <-. left. split; [reflexivity |]. cbn [exn_msg].
    right. right. right. left. reflexivity. }
  destruct phone as [| b | z | f | p | l | d];
    cbn [call_isdigit py_len] in Hv.
  5: { destruct (isdigit w p); [destruct (10 <=? length p)%nat |];
         try discriminate Hv;
         injection Hv as <-; left; (split; [reflexivity |]); cbn [exn_msg];
         right; right; right; right; reflexivity. }
  all: injection Hv as <-; right; split; [reflexivity |];
    eexists; split; [reflexivity |]; split;
    [intros q; discriminate | reflexivity].
Qed.

Lemma validate_input_raises_only_witness :
  let e := Exn AttributeError (u "'int' object has no attribute 'isdigit'") in
  (exn_cls e = ValueError /\
   (exn_msg e = u "Missing required fields: name, phone" \/
    exn_msg e = u "Missing required fields: name" \/
    exn_msg e = u "Missing required fields: phone" \/
    exn_msg e = u "fees_paid must be a boolean value" \/
    exn_msg e = u "Phone number must be at least 10 digits")) \/
  (exn_cls e = AttributeError /\
   exists phone, bob_number_phone_only !! u "phone" = Some phone /\
                 (forall p, phone <> PStr p) /\
                 exn_msg e = u "'" ++ type_name phone ++
                             u "' object has no attribute 'isdigit'").
Proof.
  intros e.
  apply (validate_input_raises_only working_world bob_number_phone_only e).
  vm_compute. reflexivity.
Defined.

(** X3: keys other than name, phone and fees_paid (email, course, anything
    else) have no influence on validation, whether added or removed. *)
Theorem validate_input_ignores_other_keys
    (w : World) (data : pydict) (key : pystr) (v : pyval) :
  key <> u "name" -> key <> u "phone" -> key <> u "fees_paid" ->
  validate_input w (<[key := v]> data) = validate_input w data /\
  validate_input w (delete key data) = validate_input w data.
Proof.
  intros Hn Hp Hf. split; apply validate_input_ext.
  - apply lookup_insert_ne; assumption.
  - apply lookup_insert_ne; assumption.
  - apply lookup_insert_ne; assumption.
  - apply lookup_delete_ne; assumption.
  - apply lookup_delete_ne; assumption.
  - apply lookup_delete_ne; assumption.
Qed.

Lemma validate_input_ignores_other_keys_witness :
  validate_input working_world alice_with_referrer =
    validate_input working_world alice /\
  validate_input working_world (delete (u "referrer") alice) =
    validate_input working_world alice.
Proof.
  apply (validate_input_ignores_other_keys working_world alice
           (u "referrer") (PStr (u "web")));
    vm_compute; discriminate.
Defined.

(** ** post and send_telegram_message *)

Lemma respond_run (w : World) s (e : exn) :
  exists l t r,
    respond e w s = (State (outbox s) (log s ++ [(l, t)]), Ok r) /\
    ((exn_cls e = ValueError /\ status r = 400 /\
      body r = error_body (exn_msg e)) \/
     (exn_cls e = TelegramError /\ status r = 502 /\
      body r = error_body (u "Failed to send notification to Telegram")) \/
     (exn_cls e <> ValueError /\ exn_cls e <> TelegramError /\
      status r = 500 /\
      body r = error_body (u "An unexpected error occurred"))).
Proof.
  destruct e as [c m].
  destruct c; eexists _, _, _; (split; [reflexivity |]);
    cbn [exn_cls exn_msg status body];
    [ left; repeat split
    | right; left; repeat split
    | right; right; repeat split; discriminate ..].
Qed.

Lemma send_body_run
    (w : World) s (name phone fees_paid email course : pyval) :
  let g := group_message w name phone fees_paid email course in
  let c := admin_confirmation w name in
  send_body name phone fees_paid email course w s =
  match Bot_init w (TELEGRAM_BOT_TOKEN w) with
  | Some e => (s, Raise e)
  | None =>
      match api_send w (length (outbox s)) g with
      | Some e => (State (outbox s ++ [g]) (log s), Raise e)
      | None =>
          match api_send w (S (length (outbox s))) c with
          | Some e => (State (outbox s ++ [g; c]) (log s), Raise e)
          | None => (State (outbox s ++ [g; c]) (log s), Ok tt)
          end
      end
  end.
Proof.
  intros g c. unfold send_body, bind, ask, Bot, send_message.
  cbv beta iota. fold g c.
  destruct (Bot_init w (TELEGRAM_BOT_TOKEN w)); [reflexivity |].
  destruct (api_send w (length (outbox s)) g); [reflexivity |].
  cbn [outbox log]. rewrite length_app, Nat.add_comm. cbn [length Nat.add].
  rewrite <- app_assoc.
  destruct (api_send w (S (length (outbox s))) c); reflexivity.
Qed.

Lemma send_telegram_message_ok_inv
    (w : World) s (name phone fees_paid email course : pyval) s' :
  send_telegram_message name phone fees_paid email course w s = (s', Ok tt) ->
  send_body name phone fees_paid email course w s = (s', Ok tt).
Proof.
  intros H.
  destruct (send_body name phone fees_paid email course w s)
    as [s1 [[] | e]] eqn:Hb.
  - rewrite (send_telegram_message_ok w s _ _ _ _ _ s1 Hb) in H. exact H.
  - rewrite (send_telegram_message_raises w s _ _ _ _ _ s1 e Hb) in H.
    discriminate H.
Qed.

Lemma validate_input_ok_present (w : World) (data : pydict) :
  validate_input w data = Ok tt ->
  exists name phone,
    data !! u "name" = Some name /\ data !! u "phone" = Some phone.
Proof.
  intros Hv.
  destruct (data !! u "name") as [name |] eqn:Hn.
  2: { destruct (validate_input_absent w data (or_introl Hn))
         as (m & Hm & _). congruence. }
  destruct (data !! u "phone") as [phone |] eqn:Hp.
  2: { destruct (validate_input_absent w data (or_intror Hp))
         as (m & Hm & _). congruence. }
  eauto.
Qed.

(** The two ways [post] can end: the 200 answer after a send that
    returned, or [respond] on the exception of validation or of the send. *)
Lemma post_outcome (w : World) s (data : pydict) :
  let fees_paid := dict_get data (u "fees_paid") (PBool false) in
  let email := dict_get data (u "email") PNone in
  let course := dict_get data (u "course") PNone in
  (exists name phone s',
     validate_input w data = Ok tt /\
     data !! u "name" = Some name /\
     data !! u "phone" = Some phone /\
     send_telegram_message name phone fees_paid email course w s
       = (s', Ok tt) /\
     post data w s =
       (s', Ok {| body := success_body name phone fees_paid;
                  status := HTTP_200_OK |})) \/
  (exists e s',
     post data w s = respond e w s' /\
     ((validate_input w data = Raise e /\ s' = s) \/
      (validate_input w data = Ok tt /\
       exists name phone,
         data !! u "name" = Some name /\
         data !! u "phone" = Some phone /\
         send_telegram_message name phone fees_paid email course w s
           = (s', Raise e)))).
Proof.
  intros fees_paid email course.
  destruct (validate_input w data) as [[] | e] eqn:Hv.
  - destruct (validate_input_ok_present w data Hv) as (name & phone & Hn & Hp).
    pose proof (post_valid w s data name phone Hv Hn Hp) as Hpost.
    fold fees_paid email course in Hpost.
    destruct (send_telegram_message name phone fees_paid email course w s)
      as [s' [[] | e]] eqn:Hs.
    + left. exists name, phone, s'. auto.
    + right. exists e, s'. split; [exact Hpost |]. right.
      split; [reflexivity |]. exists name, phone. auto.
  - right. exists e, s. split; [apply post_invalid; exact Hv |]. left. auto.
Qed.

(** X4: [post] never lets an exception out.  It always returns a response,
    which is either 200 with the success body, or 400, 502 or 500 with an
    error body of the two keys status and message; for 502 and 500 the
    message is a fixed text. *)
Theorem post_always_answers (w : World) (s : state) (data : pydict) :
  exists s' r,
    post data w s = (s', Ok r) /\
    ((status r = 200 /\
      exists name phone,
        data !! u "name" = Some name /\ data !! u "phone" = Some phone /\
        body r = success_body name phone
                   (dict_get data (u "fees_paid") (PBool false))) \/
     (status r = 400 /\ exists message, body r = error_body message) \/
     (status r = 502 /\
      body r = error_body (u "Failed to send notification to Telegram")) \/
     (status r = 500 /\
      body r = error_body (u "An unexpected error occurred"))).
Proof.
  destruct (post_outcome w s data)
    as [(name & phone & s' & _ & Hn & Hp & _ & Hpost) | (e & s' & Hpost & _)].
  - eexists _, _. split; [exact Hpost |]. left.
    split; [reflexivity |]. exists name, phone. auto.
  - destruct (respond_run w s' e) as (l & t & r & Hr & Hc).
    eexists _, r. split; [rewrite Hpost; exact Hr |]. right.
    destruct Hc as [(_ & H4 & Hb) | [(_ & H5 & Hb) | (_ & _ & H5 & Hb)]].
    + left. eauto.
    + right. left. auto.
    + right. right. auto.
Qed.

(** X5: when validation raises, no call is made to the Telegram API and
    exactly one record is added to the log. *)
Theorem invalid_input_sends_nothing
    (w : World) (s : state) (data : pydict) (e : exn) :
  validate_input w data = Raise e ->
  outbox (fst (post data w s)) = outbox s /\
  exists record, log (fst (post data w s)) = log s ++ [record].
Proof.
  intros Hv. rewrite (post_invalid w s data e Hv).
  destruct (respond_run w s e) as (l & t & r & Hr & _). rewrite Hr.
  split; [reflexivity |]. exists (l, t). reflexivity.
Qed.

Lemma invalid_input_sends_nothing_witness :
  outbox (fst (post eve_dashed_phone working_world initial)) = outbox initial /\
  exists record,
    log (fst (post eve_dashed_phone working_world initial)) =
    log initial ++ [record].
Proof.
  apply (invalid_input_sends_nothing working_world initial eve_dashed_phone
           (Exn ValueError (u "Phone number must be at least 10 digits"))).
  vm_compute. reflexivity.
Defined.

(** X6: a 200 answer is only given when the input passed validation, the
    client was built and both sends were accepted; the calls made are then
    the group message followed by the admin confirmation, and no other. *)
Theorem status_200_means_delivered
    (w : World) (data : pydict) (s' : state) (r : Response) :
  post data w initial = (s', Ok r) ->
  status r = 200 ->
  let fees_paid := dict_get data (u "fees_paid") (PBool false) in
  let email := dict_get data (u "email") PNone in
  let course := dict_get data (u "course") PNone in
  validate_input w data = Ok tt /\
  exists name phone,
    data !! u "name" = Some name /\
    data !! u "phone" = Some phone /\
    Bot_init w (TELEGRAM_BOT_TOKEN w) = None /\
    api_send w 0 (group_message w name phone fees_paid email course) = None /\
    api_send w 1 (admin_confirmation w name) = None /\
    outbox s' = [ group_message w name phone fees_paid email course;
                  admin_confirmation w name ] /\
    body r = success_body name phone fees_paid.
Proof.
  intros Hpost H200 fees_paid email course.
  destruct (post_outcome w initial data)
    as [(name & phone & s1 & Hv & Hn & Hp & Hs & Hpost') |
        (e & s1 & Hpost' & _)].
  - fold fees_paid email course in Hs, Hpost'.
    rewrite Hpost in Hpost'. injection Hpost' as -> ->.
    split; [exact Hv |]. exists name, phone.
    apply send_telegram_message_ok_inv in Hs.
    rewrite send_body_run in Hs. cbv zeta in Hs.
    destruct (Bot_init w (TELEGRAM_BOT_TOKEN w)); [discriminate Hs |].
    change (length (outbox initial)) with 0%nat in Hs.
    destruct (api_send w 0
                (group_message w name phone fees_paid email course));
      [discriminate Hs |].
    destruct (api_send w 1 (admin_confirmation w name));
      [discriminate Hs |].
    injection Hs as <-. repeat split; reflexivity || assumption.
  - destruct (respond_run w s1 e) as (l & t & r' & Hr & Hc).
    rewrite Hpost, Hr in Hpost'. injection Hpost' as _ ->.
    destruct Hc as [(_ & H & _) | [(_ & H & _) | (_ & _ & H & _)]];
      rewrite H in H200; discriminate H200.
Qed.

Lemma status_200_means_delivered_witness :
  validate_input working_world alice = Ok tt.
Proof.
  apply (status_200_means_delivered working_world alice
           (fst (post alice working_world initial))
           {| body := success_body (PStr (u "Alice")) (PStr (u "9876543210"))
                        (PBool true);
              status := 200 |}).
  - vm_compute. reflexivity.
  - reflexivity.
Defined.

(** X7: every answer other than 200 leaves a record in the log, and a 200
    answer leaves none: the answer is 200 exactly when nothing was
    logged during the request. *)
Theorem logged_unless_success
    (w : World) (data : pydict) (s' : state) (r : Response) :
  post data w initial = (s', Ok r) ->
  (status r = 200 <-> log s' = []).
Proof.
  intros Hpost.
  destruct (post_outcome w initial data)
    as [(name & phone & s1 & _ & _ & _ & Hs & Hpost') |
        (e & s1 & Hpost' & _)].
  - rewrite Hpost in Hpost'. injection Hpost' as -> ->.
    split; [intros _ | reflexivity].
    apply send_telegram_message_ok_inv in Hs.
    rewrite send_body_run in Hs. cbv zeta in Hs.
    destruct (Bot_init w (TELEGRAM_BOT_TOKEN w)); [discriminate Hs |].
    destruct (api_send w (length (outbox initial)) _); [discriminate Hs |].
    destruct (api_send w (S (length (outbox initial))) _);
      [discriminate Hs |].
    injection Hs as <-. reflexivity.
  - destruct (respond_run w s1 e) as (l & t & r' & Hr & Hc).
    rewrite Hpost, Hr in Hpost'. injection Hpost' as -> ->.
    split.
    + intros H200.
      destruct Hc as [(_ & H & _) | [(_ & H & _) | (_ & _ & H & _)]];
        rewrite H in H200; discriminate H200.
    + cbn [log]. intros Hnil. apply app_eq_nil in Hnil as [_ Hnil].
      discriminate Hnil.
Qed.

Lemma logged_unless_success_witness :
  status {| body := success_body (PStr (u "Alice")) (PStr (u "9876543210"))
                      (PBool true);
            status := 200 |} = 200 <->
  log (fst (post alice working_world initial)) = [].
Proof.
  apply (logged_unless_success working_world alice).
  vm_compute. reflexivity.
Defined.

Lemma post_send_raises
    (w : World) s (data : pydict) (name phone : pyval) s1 e :
  validate_input w data = Ok tt ->
  data !! u "name" = Some name ->
  data !! u "phone" = Some phone ->
  send_body name phone
    (dict_get data (u "fees_paid") (PBool false))
    (dict_get data (u "email") PNone)
    (dict_get data (u "course") PNone) w s = (s1, Raise e) ->
  post data w s =
  respond e w
    (fst (notify_admin_error (alert_text e) w
            (State (outbox s1) (log s1 ++ [(ERROR, caught_text e)])))).
Proof.
  intros Hv Hn Hp Hb. rewrite (post_valid w s data name phone Hv Hn Hp).
  rewrite (send_telegram_message_raises w s _ _ _ _ _ s1 e Hb). reflexivity.
Qed.

Lemma send_telegram_message_calls
    (w : World) s (name phone fees_paid email course : pyval) :
  let g := group_message w name phone fees_paid email course in
  let c := admin_confirmation w name in
  exists calls,
    outbox (fst (send_telegram_message name phone fees_paid email course w s))
      = outbox s ++ calls /\
    (calls = [] \/ calls = [g; c] \/
     exists e, calls = [g; admin_alert w (alert_text e)] \/
               calls = [g; c; admin_alert w (alert_text e)]).
Proof.
  intros g c.
  destruct (send_body name phone fees_paid email course w s)
    as [s1 [[] | e]] eqn:Hb.
  - rewrite (send_telegram_message_ok w s _ _ _ _ _ s1 Hb).
    rewrite send_body_run in Hb. cbv zeta in Hb. fold g c in Hb.
    destruct (Bot_init w (TELEGRAM_BOT_TOKEN w)); [discriminate Hb |].
    destruct (api_send w (length (outbox s)) g); [discriminate Hb |].
    destruct (api_send w (S (length (outbox s))) c); [discriminate Hb |].
    injection Hb as <-. exists [g; c]. split; [reflexivity |]. auto.
  - rewrite (send_telegram_message_raises w s _ _ _ _ _ s1 e Hb).
    cbn [fst]. rewrite notify_admin_error_run.
    rewrite send_body_run in Hb. cbv zeta in Hb. fold g c in Hb.
    destruct (Bot_init w (TELEGRAM_BOT_TOKEN w)).
    + injection Hb as <- _. exists []. split; [| auto].
      cbn [outbox]. rewrite app_nil_r. reflexivity.
    + destruct (api_send w (length (outbox s)) g).
      * injection Hb as <- _.
        exists [g; admin_alert w (alert_text e)].
        split; [| right; right; exists e; auto].
        destruct (api_send w _ (admin_alert w (alert_text e)));
          cbn [outbox fst]; rewrite <- app_assoc; reflexivity.
      * destruct (api_send w (S (length (outbox s))) c);
          [| discriminate Hb].
        injection Hb as <- _.
        exists [g; c; admin_alert w (alert_text e)].
        split; [| right; right; exists e; auto].
        destruct (api_send w _ (admin_alert w (alert_text e)));
          cbn [outbox fst]; rewrite <- app_assoc; reflexivity.
Qed.

(** X8: one request makes at most three calls to the Telegram API and
    never repeats one: nothing at all, or the group message followed by
    the admin confirmation, by an admin alert, or by both in that
    order.  The group message is sent at most once. *)
Theorem at_most_three_calls (w : World) (data : pydict) :
  exists calls,
    outbox (fst (post data w initial)) = calls /\
    (length calls <= 3)%nat /\
    (calls = [] \/
     exists name phone,
       data !! u "name" = Some name /\ data !! u "phone" = Some phone /\
       let g := group_message w name phone
                  (dict_get data (u "fees_paid") (PBool false))
                  (dict_get data (u "email") PNone)
                  (dict_get data (u "course") PNone) in
       let c := admin_confirmation w name in
       calls = [g; c] \/
       exists e, calls = [g; admin_alert w (alert_text e)] \/
                 calls = [g; c; admin_alert w (alert_text e)]).
Proof.
  assert (forall name phone e s',
            post data w initial = respond e w s' \/
            (exists r, post data w initial = (s', Ok r)) ->
            outbox s' = outbox
              (fst (send_telegram_message name phone
                      (dict_get data (u "fees_paid") (PBool false))
                      (dict_get data (u "email") PNone)
                      (dict_get data (u "course") PNone) w initial)) ->
            data !! u "name" = Some name ->
            data !! u "phone" = Some phone ->
            exists calls,
              outbox (fst (post data w initial)) = calls /\
              (length calls <= 3)%nat /\
              (calls = [] \/
               exists name phone,
                 data !! u "name" = Some name /\
                 data !! u "phone" = Some phone /\
                 let g := group_message w name phone
                            (dict_get data (u "fees_paid") (PBool false))
                            (dict_get data (u "email") PNone)
                            (dict_get data (u "course") PNone) in
                 let c := admin_confirmation w name in
                 calls = [g; c] \/
                 exists e, calls = [g; admin_alert w (alert_text e)] \/
                           calls = [g; c; admin_alert w (alert_text e)]))
    as Hsend.
  { intros name phone e s' Hpost Hout Hn Hp.
    destruct (send_telegram_message_calls w initial name phone
                (dict_get data (u "fees_paid") (PBool false))
                (dict_get data (u "email") PNone)
                (dict_get data (u "course") PNone))
      as (calls & Hc & Hshape).
    cbn [outbox initial app] in Hc.
    exists calls.
    assert (outbox (fst (post data w initial)) = calls) as Hcalls.
    { destruct Hpost as [Hpost | [r Hpost]]; rewrite Hpost.
      - destruct (respond_run w s' e) as (l & t & r & Hr & _).
        rewrite Hr. cbn [fst outbox]. congruence.
      - cbn [fst]. congruence. }
    split; [exact Hcalls |]. split.
    - destruct Hshape as [-> | [-> | [e' [-> | ->]]]]; simpl; lia.
    - destruct Hshape as [-> | [-> | [e' [-> | ->]]]].
      + left. reflexivity.
      + right. exists name, phone. auto.
      + right. exists name, phone. split; [exact Hn |]. split; [exact Hp |].
        right. exists e'. left. reflexivity.
      + right. exists name, phone. split; [exact Hn |]. split; [exact Hp |].
        right. exists e'. right. reflexivity. }
  destruct (post_outcome w initial data)
    as [(name & phone & s1 & _ & Hn & Hp & Hs & Hpost) |
        (e & s1 & Hpost & [[Hv ->] | (_ & name & phone & Hn & Hp & Hs)])].
  - apply (Hsend name phone (Exn OtherException []) s1); auto.
    + right. eauto.
    + rewrite Hs. reflexivity.
  - exists []. split; [| split; [simpl; lia | left; reflexivity]].
    rewrite Hpost. destruct (respond_run w initial e) as (l & t & r & Hr & _).
    rewrite Hr. reflexivity.
  - apply (Hsend name phone e s1); auto. rewrite Hs. reflexivity.
Qed.

(** X9: for a validated input, when the [try] block of
    [send_telegram_message] raises an exception that is neither a
    [TelegramError] nor a [ValueError], the method logs "Unexpected
    error", runs [notify_admin_error] once with the same text and raises
    the exception again; the handler answers 500 with a fixed body. *)
Theorem unexpected_send_error_server_error
    (w : World) (data : pydict) (name phone : pyval) (s1 : state) (e : exn) :
  validate_input w data = Ok tt ->
  data !! u "name" = Some name ->
  data !! u "phone" = Some phone ->
  let fees_paid := dict_get data (u "fees_paid") (PBool false) in
  let email := dict_get data (u "email") PNone in
  let course := dict_get data (u "course") PNone in
  send_body name phone fees_paid email course w initial = (s1, Raise e) ->
  exn_cls e <> TelegramError ->
  exn_cls e <> ValueError ->
  let unexpected := u "Unexpected error: " ++ exn_msg e in
  let logged := State (outbox s1) (log s1 ++ [(ERROR, unexpected)]) in
  let alerted := fst (notify_admin_error unexpected w logged) in
  send_telegram_message name phone fees_paid email course w initial =
    (alerted, Raise e) /\
  post data w initial =
    (State (outbox alerted) (log alerted ++ [(ERROR, unexpected)]),
     Ok {| body :=
             PDict [ (u "status", PStr (u "error"));
                     (u "message", PStr (u "An unexpected error occurred")) ];
           status := 500 |}).
Proof.
  intros Hv Hn Hp fees_paid email course Hb Ht Hve unexpected logged alerted.
  assert (is_class TelegramError e = false) as Hc
    by (apply bool_decide_eq_false; exact Ht).
  assert (alert_text e = unexpected) as Ha
    by (unfold alert_text; rewrite Hc; reflexivity).
  assert (caught_text e = unexpected) as Hct
    by (unfold caught_text; rewrite Hc; reflexivity).
  split.
  - rewrite (send_telegram_message_raises w initial _ _ _ _ _ s1 e Hb).
    rewrite Ha, Hct. reflexivity.
  - rewrite (post_send_raises w initial data name phone s1 e Hv Hn Hp Hb).
    rewrite Ha, Hct. fold logged alerted.
    rewrite (respond_other w alerted e Hve Ht). reflexivity.
Qed.

Lemma unexpected_send_error_server_error_witness :
  let w := first_call_raises (Exn OtherException (u "connection reset")) in
  post alice w initial =
  (State [ group_message w (PStr (u "Alice")) (PStr (u "9876543210"))
             (PBool true) PNone PNone;
           admin_alert w (u "Unexpected error: connection reset") ]
         [ (ERROR, u "Unexpected error: connection reset");
           (ERROR, u "Unexpected error: connection reset") ],
   Ok {| body :=
           PDict [ (u "status", PStr (u "error"));
                   (u "message", PStr (u "An unexpected error occurred")) ];
         status := 500 |}).
Proof.
  intros w.
  apply (fun Hv Hn Hp Hb Ht Hve =>
           proj2 (unexpected_send_error_server_error w alice
                    (PStr (u "Alice")) (PStr (u "9876543210"))
                    (State [ group_message w (PStr (u "Alice"))
                               (PStr (u "9876543210")) (PBool true)
                               PNone PNone ] [])
                    (Exn OtherException (u "connection reset"))
                    Hv Hn Hp Hb Ht Hve)).
  - reflexivity.
  - reflexivity.
  - reflexivity.
  - reflexivity.
  - discriminate.
  - discriminate.
Defined.

(** X10: [post] catches [ValueError] around the send as well as around
    validation.  For a validated input, a [ValueError] raised inside the
    [try] block of [send_telegram_message] is reported to the admin as an
    unexpected error, and the handler then answers 400 with the text of
    the exception in the body. *)
Theorem value_error_from_send_is_client_error
    (w : World) (data : pydict) (name phone : pyval) (s1 : state) (e : exn) :
  validate_input w data = Ok tt ->
  data !! u "name" = Some name ->
  data !! u "phone" = Some phone ->
  let fees_paid := dict_get data (u "fees_paid") (PBool false) in
  let email := dict_get data (u "email") PNone in
  let course := dict_get data (u "course") PNone in
  send_body name phone fees_paid email course w initial = (s1, Raise e) ->
  exn_cls e = ValueError ->
  let unexpected := u "Unexpected error: " ++ exn_msg e in
  let logged := State (outbox s1) (log s1 ++ [(ERROR, unexpected)]) in
  let alerted := fst (notify_admin_error unexpected w logged) in
  post data w initial =
    (State (outbox alerted)
           (log alerted ++ [(WARNING, u "Validation error: " ++ exn_msg e)]),
     Ok {| body :=
             PDict [ (u "status", PStr (u "error"));
                     (u "message", PStr (exn_msg e)) ];
           status := 400 |}).
Proof.
  intros Hv Hn Hp fees_paid email course Hb Hve unexpected logged alerted.
  assert (is_class TelegramError e = false) as Hc
    by (apply bool_decide_eq_false; rewrite Hve; discriminate).
  assert (alert_text e = unexpected) as Ha
    by (unfold alert_text; rewrite Hc; reflexivity).
  assert (caught_text e = unexpected) as Hct
    by (unfold caught_text; rewrite Hc; reflexivity).
  rewrite (post_send_raises w initial data name phone s1 e Hv Hn Hp Hb).
  rewrite Ha, Hct. fold logged alerted.
  destruct e as [c m]. cbn [exn_cls] in Hve. subst c.
  rewrite respond_value_error. reflexivity.
Qed.

Lemma value_error_from_send_is_client_error_witness :
  let w := first_call_raises (Exn ValueError (u "chat_id is empty")) in
  post alice w initial =
  (State [ group_message w (PStr (u "Alice")) (PStr (u "9876543210"))
             (PBool true) PNone PNone;
           admin_alert w (u "Unexpected error: chat_id is empty") ]
         [ (ERROR, u "Unexpected error: chat_id is empty");
           (WARNING, u "Validation error: " ++ u "chat_id is empty") ],
   Ok {| body :=
           PDict [ (u "status", PStr (u "error"));
                   (u "message", PStr (u "chat_id is empty")) ];
         status := 400 |}).
Proof.
  intros w.
  apply (value_error_from_send_is_client_error w alice
           (PStr (u "Alice")) (PStr (u "9876543210"))
           (State [ group_message w (PStr (u "Alice"))
                      (PStr (u "9876543210")) (PBool true)
                      PNone PNone ] [])
           (Exn ValueError (u "chat_id is empty"))).
  - reflexivity.
  - reflexivity.
  - reflexivity.
  - reflexivity.
  - reflexivity.
Defined.

(** X11: when the group accepts the message and the confirmation to the
    admin is then refused with a [TelegramError], the handler answers 502
    although the group message was delivered; the calls made are the
    group message, the confirmation and one admin alert. *)
Theorem confirmation_failure_after_delivery
    (w : World) (data : pydict) (name phone : pyval) (e : exn) :
  validate_input w data = Ok tt ->
  data !! u "name" = Some name ->
  data !! u "phone" = Some phone ->
  let fees_paid := dict_get data (u "fees_paid") (PBool false) in
  let email := dict_get data (u "email") PNone in
  let course := dict_get data (u "course") PNone in
  let g := group_message w name phone fees_paid email course in
  let c := admin_confirmation w name in
  Bot_init w (TELEGRAM_BOT_TOKEN w) = None ->
  api_send w 0 g = None ->
  api_send w 1 c = Some e ->
  exn_cls e = TelegramError ->
  outbox (fst (post data w initial)) =
    [ g; c; admin_alert w (u "Failed to send message: " ++ exn_msg e) ] /\
  snd (post data w initial) =
    Ok {| body :=
            PDict [ (u "status", PStr (u "error"));
                    (u "message",
                     PStr (u "Failed to send notification to Telegram")) ];
          status := 502 |}.
Proof.
  intros Hv Hn Hp fees_paid email course g c Hb H0 H1 Hcls.
  assert (send_body name phone fees_paid email course w initial =
          (State [g; c] [], Raise e)) as Hbody.
  { rewrite send_body_run. cbv zeta. fold g c.
    change (length (outbox initial)) with 0%nat.
    rewrite Hb, H0, H1. reflexivity. }
  rewrite (post_send_raises w initial data name phone _ e Hv Hn Hp Hbody).
  assert (is_class TelegramError e = true) as Hc
    by (apply bool_decide_eq_true; exact Hcls).
  unfold alert_text, caught_text. rewrite Hc.
  rewrite notify_admin_error_run, Hb.
  destruct e as [cl m]. cbn [exn_cls] in Hcls. subst cl. cbn [exn_msg].
  destruct (api_send w _ (admin_alert w _));
    cbn [fst]; rewrite respond_telegram_error; split; reflexivity.
Qed.

Lemma confirmation_failure_after_delivery_witness :
  let w := confirmation_down in
  let g := group_message w (PStr (u "Alice")) (PStr (u "9876543210"))
             (PBool true) PNone PNone in
  let c := admin_confirmation w (PStr (u "Alice")) in
  let e := Exn TelegramError (u "Forbidden: bot was blocked by the user") in
  outbox (fst (post alice w initial)) =
    [ g; c; admin_alert w (u "Failed to send message: " ++ exn_msg e) ] /\
  snd (post alice w initial) =
    Ok {| body :=
            PDict [ (u "status", PStr (u "error"));
                    (u "message",
                     PStr (u "Failed to send notification to Telegram")) ];
          status := 502 |}.
Proof.
  intros w g c e.
  apply (confirmation_failure_after_delivery w alice
           (PStr (u "Alice")) (PStr (u "9876543210")) e).
  - reflexivity.
  - reflexivity.
  - reflexivity.
  - reflexivity.
  - reflexivity.
  - reflexivity.
  - reflexivity.
Defined.

(** X12: when the client cannot be built ([Bot(token=...)] raises a
    [TelegramError], as for a missing token), a validated request makes no
    call to the API at all, the admin alert fails for the same reason and
    is only logged, and the handler answers 502. *)
Theorem client_construction_failure
    (w : World) (data : pydict) (e : exn) :
  validate_input w data = Ok tt ->
  Bot_init w (TELEGRAM_BOT_TOKEN w) = Some e ->
  exn_cls e = TelegramError ->
  post data w initial =
    (State []
           [ (ERROR, u "Telegram API error: " ++ exn_msg e);
             (ERROR, u "Failed to notify admin: " ++ exn_msg e);
             (ERROR, u "Telegram API error: " ++ exn_msg e) ],
     Ok {| body :=
             PDict [ (u "status", PStr (u "error"));
                     (u "message",
                      PStr (u "Failed to send notification to Telegram")) ];
           status := 502 |}).
Proof.
  intros Hv Hb Hcls.
  destruct (validate_input_ok_present w data Hv) as (name & phone & Hn & Hp).
  assert (send_body name phone
            (dict_get data (u "fees_paid") (PBool false))
            (dict_get data (u "email") PNone)
            (dict_get data (u "course") PNone) w initial =
          (initial, Raise e)) as Hbody.
  { rewrite send_body_run. cbv zeta. rewrite Hb. reflexivity. }
  rewrite (post_send_raises w initial data name phone _ e Hv Hn Hp Hbody).
  assert (is_class TelegramError e = true) as Hc
    by (apply bool_decide_eq_true; exact Hcls).
  unfold alert_text, caught_text. rewrite Hc.
  rewrite notify_admin_error_run, Hb.
  destruct e as [cl m]. cbn [exn_cls] in Hcls. subst cl. cbn [exn_msg fst].
  rewrite respond_telegram_error. reflexivity.
Qed.

Lemma client_construction_failure_witness :
  post alice no_token initial =
    (State []
           [ (ERROR, u "Telegram API error: " ++
                     exn_msg (Exn TelegramError (u "Invalid token")));
             (ERROR, u "Failed to notify admin: " ++
                     exn_msg (Exn TelegramError (u "Invalid token")));
             (ERROR, u "Telegram API error: " ++
                     exn_msg (Exn TelegramError (u "Invalid token"))) ],
     Ok {| body :=
             PDict [ (u "status", PStr (u "error"));
                     (u "message",
                      PStr (u "Failed to send notification to Telegram")) ];
           status := 502 |}).
Proof.
  apply (client_construction_failure no_token alice
           (Exn TelegramError (u "Invalid token"))).
  - reflexivity.
  - reflexivity.
  - reflexivity.
Defined.

(** ** generate_request_id *)

(** X13: the request identifier is the upper-case hexadecimal writing of
    the 32 high bits of the 128-bit draw of [uuid4]: the other 96 bits,
    and the version and variant bits that [uuid4] sets, never reach it.
    Two requests get the same identifier exactly when their draws agree
    on those 32 bits. *)
Theorem request_id_is_high_32_bits (w1 w2 : World) :
  generate_request_id w1 =
    upper (hex_digits 8 (urandom16 w1 mod 2 ^ 128 / 2 ^ 96)) /\
  (generate_request_id w1 = generate_request_id w2 <->
   urandom16 w1 mod 2 ^ 128 / 2 ^ 96 = urandom16 w2 mod 2 ^ 128 / 2 ^ 96).
Proof.
  split; [apply generate_request_id_high_bits |].
  rewrite !generate_request_id_high_bits. split.
  - apply upper_hex_digits_inj;
      apply N.Div0.div_lt_upper_bound;
      change (2 ^ 96 * 16 ^ N.of_nat 8) with (2 ^ 128);
      apply N.mod_lt; apply N.pow_nonzero; discriminate.
  - intros ->. reflexivity.
Qed.

(** Two draws that differ only below bit 96 give one identifier. *)
Example request_id_collision :
  generate_request_id working_world =
  generate_request_id
    {| TELEGRAM_BOT_TOKEN := PNone; TELEGRAM_GROUP_ID := PNone;
       TELEGRAM_ADMIN_ID := PNone; Bot_init := fun _ => None;
       api_send := fun _ _ => None;
       urandom16 := 0x1a2b3c4d000000000000000000000000;
       isdigit_wide := fun _ => false; str_compound := fun _ => [] |}.
Proof. vm_compute. reflexivity. Qed.
